(** * Guest Faculty Checklist: record store, user store and access rule

    A shallow embedding of the persistence and access logic of
    [app_v5_excel.py], followed by the properties its specification states.

    Modelling choices, all read off the source:
    - a pandas DataFrame is the list of its rows, in index order; selecting
      with a boolean mask is [filter], assigning through a mask is [map];
    - every cell of the two tables is text ([string]), except the [active]
      flag of an account, which is a boolean; what [read_csv] makes of a
      cell that is not plain text (a missing value for an empty cell or an
      NA marker, a number for a numeral) is outside the model, and a saved
      table is read back as it was written;
    - the three files the program touches (the record CSV, the users CSV and
      the seed workbook) form the [World]; every function that reads or
      writes one of them is a step [World -> outcome * World];
    - [datetime.now()] is read from a [Clock] value handed to the step;
    - [hashlib.sha256] is a section variable of the user-store code;
    - the progress percentage is a binary64 float, computed with the
      primitive floats of the kernel. *)

From Stdlib Require Import List String Ascii Bool Arith ZArith Lia.
From Stdlib Require Import Floats Uint63.
Import ListNotations.

Open Scope string_scope.
Open Scope list_scope.

(** Equality of two cells, as the [==] of the source. *)
Infix "==" := String.eqb (at level 70, no associativity).

(* ================================================================== *)
(** ** Text *)

Module Text.

(** A character is a code point below 256.  Whitespace as [str.strip()]
    sees it in that range: TAB, LF, VT, FF, CR (9-13), the separators FS,
    GS, RS, US (28-31), the space (32), NEL (133) and the no-break space
    (160). *)
Definition is_space (c : ascii) : bool :=
  let n := nat_of_ascii c in
  (Nat.leb 9 n && Nat.leb n 13) || (Nat.leb 28 n && Nat.leb n 32)
  || Nat.eqb n 133 || Nat.eqb n 160.

Fixpoint lstrip (s : string) : string :=
  match s with
  | EmptyString => EmptyString
  | String c t => if is_space c then lstrip t else s
  end.

Fixpoint rstrip (s : string) : string :=
  match s with
  | EmptyString => EmptyString
  | String c t =>
      match rstrip t with
      | EmptyString => if is_space c then EmptyString else String c EmptyString
      | t' => String c t'
      end
  end.

(** [s.strip()] *)
Definition strip (s : string) : string := rstrip (lstrip s).

(** Every character of [s] is whitespace (true of the empty string). *)
Fixpoint all_space (s : string) : bool :=
  match s with
  | EmptyString => true
  | String c t => is_space c && all_space t
  end.

(** Python truthiness of a string: [if s:] *)
Definition truthy (s : string) : bool :=
  match s with EmptyString => false | _ => true end.

End Text.

Import Text.

(* ================================================================== *)
(** ** Frames *)

Module Frame.

(** [df.empty] for a frame that has columns *)
Definition empty {A : Type} (df : list A) : bool :=
  match df with [] => true | _ => false end.

(** [Series.unique()] and [DataFrame.drop_duplicates()]: the first occurrence
    of every value is kept, in order of appearance. *)
Fixpoint drop_duplicates {A : Type} (eqb : A -> A -> bool) (l : list A) : list A :=
  match l with
  | [] => []
  | x :: t => x :: filter (fun y => negb (eqb x y)) (drop_duplicates eqb t)
  end.

Definition unique (l : list string) : list string :=
  drop_duplicates String.eqb l.

(** [df.at[idx, ...] = ...] on a frame with a range index: the row at
    position [idx] is rewritten, the others are kept. *)
Fixpoint set_at {A : Type} (idx : nat) (f : A -> A) (l : list A) : list A :=
  match l, idx with
  | [], _ => []
  | x :: t, O => f x :: t
  | x :: t, S i => x :: set_at i f t
  end.

(** [df[mask].index[0]]: position of the first row the mask selects. *)
Fixpoint first_index {A : Type} (p : A -> bool) (l : list A) : option nat :=
  match l with
  | [] => None
  | x :: t => if p x then Some O else option_map S (first_index p t)
  end.

End Frame.

Import Frame.

(* ================================================================== *)
(** ** Data model *)

(** One line of [faculty_checklist_data.csv]. *)
Record Row : Type := mkRow {
  Owner : string;
  Name : string;
  Designation : string;
  Session_Name : string;
  Session_Date : string;
  Checklist_Item : string;
  Status : string;
  Remarks : string;
  Last_Updated : string;
  Updated_By : string
}.

Definition DataFrame : Type := list Row.

(** One line of [users_data.csv]. *)
Record User : Type := mkUser {
  username : string;
  password : string;
  role : string;
  full_name : string;
  email : string;
  created_date : string;
  active : bool
}.

Definition UsersFrame : Type := list User.

(** The two renderings of [datetime.now()] the program uses. *)
Record Clock : Type := mkClock {
  stamp : string;   (* strftime("%Y-%m-%d %H:%M:%S") *)
  today : string    (* strftime("%Y-%m-%d") *)
}.

(** Exceptions that reading the record file can raise.  In pandas
    [EmptyDataError] and [ParserError] are both subclasses of [ValueError]. *)
Inductive exn : Type :=
| ValueError
| EmptyDataError
| ParserError
| FileNotFoundError.

(** Which of the three backward-compatibility columns a stored table has.
    The seven other columns are always there. *)
Record Columns : Type := mkColumns {
  has_Owner : bool;
  has_Last_Updated : bool;
  has_Updated_By : bool
}.

Definition all_columns : Columns := mkColumns true true true.

(** What [DATA_FILE] holds, as [os.path] and [pd.read_csv] observe it. *)
Inductive csv_file : Type :=
| Missing                                     (* os.path.exists is False *)
| ZeroLength                                  (* exists, getsize == 0 *)
| Unparsable (e : exn)                        (* read_csv raises e *)
| Table (cols : Columns) (rows : DataFrame).  (* a header line and rows *)

(** What [EXCEL_FILE] holds, as [initialize_data] observes it. *)
Inductive excel_file : Type :=
| NoWorkbook                                  (* os.path.exists is False *)
| BadWorkbook                                 (* reading it raises *)
| Workbook (checklist_items faculty_columns : list string).

Record World : Type := mkWorld {
  data_file : csv_file;
  users_file : option UsersFrame;
  workbook : excel_file
}.

Definition with_data_file (f : csv_file) (w : World) : World :=
  mkWorld f (users_file w) (workbook w).

Definition with_users_file (u : option UsersFrame) (w : World) : World :=
  mkWorld (data_file w) u (workbook w).

(* ================================================================== *)
(** ** Steps over the world *)

Inductive outcome (A : Type) : Type :=
| Return (a : A)
| Raise (e : exn).

Arguments Return {A} a.
Arguments Raise {A} e.

Definition IO (A : Type) : Type := World -> outcome A * World.

Definition ret {A : Type} (a : A) : IO A := fun w => (Return a, w).

Definition bind {A B : Type} (m : IO A) (k : A -> IO B) : IO B :=
  fun w =>
    match m w with
    | (Return a, w') => k a w'
    | (Raise e, w') => (Raise e, w')
    end.

Notation "x <- m ;; k" := (bind m (fun x => k))
  (at level 61, m at next level, right associativity).
Notation "m ;;; k" := (bind m (fun _ => k))
  (at level 61, right associativity).

(* ================================================================== *)
(** ** Record store: seeding, loading, saving *)

(** [default_checklist_items] of [initialize_data] (the same list in its
    [else] branch and in its [except] branch). *)
Definition default_checklist_items : list string :=
  [ "Letter to Guest Faculty"; "Letter to Boss"; "Tour Program"; "Room Book";
    "Inbound Vehicle"; "Outbound Vehicle"; "Book Tickets"; "Protocol Officer";
    "Link (if Online mode)"; "Biodata of Faculty"; "Name Plate";
    "Welcome Board"; "Faculty Folder (OTs Biodata, Schedule, Pen)";
    "Local Vehicle"; "Pre-receipt"; "Thanks Letter"; "Honorarium Put up";
    "Protocal Office List Update"; "Reimbursement (if any)";
    "Feedback from OTs"; "Compiling Feedback"; "Postal Card" ].

(** The record built for one workbook column and one checklist item. *)
Definition workbook_record (clk : Clock) (faculty item : string) : Row :=
  {| Owner := "admin"; Name := strip faculty; Designation := "";
     Session_Name := ""; Session_Date := ""; Checklist_Item := item;
     Status := "Pending"; Remarks := "";
     Last_Updated := stamp clk; Updated_By := "System" |}.

(** The record built for one default checklist item. *)
Definition sample_record (clk : Clock) (item : string) : Row :=
  {| Owner := "admin"; Name := "Sample Faculty";
     Designation := "Guest Speaker"; Session_Name := "Sample Session";
     Session_Date := today clk; Checklist_Item := item; Status := "Pending";
     Remarks := "This is a sample entry. Add your own faculty from 'Manage Faculty' section.";
     Last_Updated := stamp clk; Updated_By := "System" |}.

(** The [records] list that [initialize_data] builds: from the workbook when
    it is there and readable ([for faculty ... for item ...]), from the
    default checklist when it is absent ([else]) or reading it raised
    ([except Exception]). *)
Definition seed_records (clk : Clock) (x : excel_file) : DataFrame :=
  match x with
  | Workbook checklist_items faculty_columns =>
      flat_map (fun faculty => map (workbook_record clk faculty) checklist_items)
               faculty_columns
  | NoWorkbook => map (sample_record clk) default_checklist_items
  | BadWorkbook => map (sample_record clk) default_checklist_items
  end.

(** [os.path.exists(DATA_FILE)] *)
Definition exists_file (f : csv_file) : bool :=
  match f with Missing => false | _ => true end.

(** [pd.DataFrame(records).to_csv(DATA_FILE, index=False)]: a frame built
    from an empty list has no columns, and its file is a lone line break,
    which [read_csv] rejects with [EmptyDataError]. *)
Definition records_to_csv (records : DataFrame) : csv_file :=
  match records with
  | [] => Unparsable EmptyDataError
  | _ => Table all_columns records
  end.

Definition initialize_data (clk : Clock) (force : bool) : IO unit :=
  fun w =>
    if negb (exists_file (data_file w)) || force then
      let records := seed_records clk (workbook w) in
      (Return tt, with_data_file (records_to_csv records) w)
    else (Return tt, w).

(** [pd.read_csv(DATA_FILE)] *)
Definition read_csv (f : csv_file) : outcome (Columns * DataFrame) :=
  match f with
  | Missing => Raise FileNotFoundError
  | ZeroLength => Raise EmptyDataError
  | Unparsable e => Raise e
  | Table cols rows => Return (cols, rows)
  end.

(** The three [if "..." not in df.columns] assignments of [load_data]. *)
Definition backfill (clk : Clock) (cols : Columns) (df : DataFrame) : DataFrame :=
  let df1 :=
    if has_Owner cols then df
    else map (fun r => mkRow "admin" (Name r) (Designation r) (Session_Name r)
                (Session_Date r) (Checklist_Item r) (Status r) (Remarks r)
                (Last_Updated r) (Updated_By r)) df in
  let df2 :=
    if has_Last_Updated cols then df1
    else map (fun r => mkRow (Owner r) (Name r) (Designation r) (Session_Name r)
                (Session_Date r) (Checklist_Item r) (Status r) (Remarks r)
                (stamp clk) (Updated_By r)) df1 in
  if has_Updated_By cols then df2
  else map (fun r => mkRow (Owner r) (Name r) (Designation r) (Session_Name r)
              (Session_Date r) (Checklist_Item r) (Status r) (Remarks r)
              (Last_Updated r) "System") df2.

(** The [try] block of [load_data]. *)
Definition load_data_try (clk : Clock) (w : World) : outcome DataFrame :=
  if negb (exists_file (data_file w)) then Raise ValueError
  else
    match data_file w with
    | ZeroLength => Raise ValueError
    | f =>
        match read_csv f with
        | Raise e => Raise e
        | Return (cols, df) =>
            if empty df then Raise ValueError
            else Return (backfill clk cols df)
        end
    end.

(** [except (pd.errors.EmptyDataError, ValueError, FileNotFoundError)]:
    [ParserError] is caught too, as a subclass of [ValueError]. *)
Definition caught (e : exn) : bool :=
  match e with
  | ValueError | EmptyDataError | ParserError | FileNotFoundError => true
  end.

Definition load_data (clk : Clock) : IO DataFrame :=
  fun w =>
    match load_data_try clk w with
    | Return df => (Return df, w)
    | Raise e =>
        if caught e then
          let w1 := if exists_file (data_file w) then with_data_file Missing w
                    else w in
          match initialize_data clk true w1 with
          | (Raise e', w2) => (Raise e', w2)
          | (Return _, w2) =>
              match read_csv (data_file w2) with
              | Return (_, df) => (Return df, w2)
              | Raise e' => (Raise e', w2)
              end
          end
        else (Raise e, w)
    end.

(** [df.to_csv(DATA_FILE, index=False)] for a frame that came from
    [load_data]: it has all ten columns, also when it has no rows. *)
Definition save_data (df : DataFrame) : IO unit :=
  fun w => (Return tt, with_data_file (Table all_columns df) w).

(* ================================================================== *)
(** ** Record store: visits *)

(** The mask [(df.Owner == owner) & (df.Name == name) & (df["Session Date"] == date)] *)
Definition visit_mask (owner name session_date : string) (r : Row) : bool :=
  (Owner r == owner) && (Name r == name) && (Session_Date r == session_date).

(** The dictionary appended for one checklist item by [add_new_faculty]. *)
Definition new_record (owner name designation session_name session_date
                       timestamp item : string) : Row :=
  {| Owner := owner; Name := strip name; Designation := strip designation;
     Session_Name := strip session_name; Session_Date := session_date;
     Checklist_Item := item; Status := "Pending"; Remarks := "";
     Last_Updated := timestamp; Updated_By := owner |}.

(** [add_new_faculty].  The date is the text [str(session_date)]. *)
Definition add_new_faculty (clk : Clock)
    (owner name designation session_name session_date : string)
    : IO (string * option DataFrame) :=
  df <- load_data clk ;;
  if strip name == "" then ret ("Name cannot be empty", None)
  else
    let existing := filter (visit_mask owner (strip name) session_date) df in
    if negb (empty existing) then
      ret ("Faculty with this name and session date already exists", None)
    else
      let checklist_items := unique (map Checklist_Item df) in
      let timestamp := stamp clk in
      let new_records :=
        map (new_record owner name designation session_name session_date
               timestamp) checklist_items in
      let df := df ++ new_records in
      save_data df ;;;
      ret ("Success", Some df).

(** [delete_faculty] *)
Definition delete_faculty (clk : Clock) (owner name session_date : string)
    : IO DataFrame :=
  df <- load_data clk ;;
  let df := filter (fun r => negb (visit_mask owner name session_date r)) df in
  save_data df ;;;
  ret df.

(** The six [df.loc[mask, ...] = ...] assignments of [edit_faculty] on one
    selected row. *)
Definition renamed (owner new_name new_designation new_session_name
                    new_session_date timestamp : string) (r : Row) : Row :=
  {| Owner := Owner r; Name := strip new_name;
     Designation := strip new_designation;
     Session_Name := strip new_session_name;
     Session_Date := new_session_date;
     Checklist_Item := Checklist_Item r; Status := Status r;
     Remarks := Remarks r; Last_Updated := timestamp; Updated_By := owner |}.

(** The mask of the [existing] frame of [edit_faculty]: rows of the owner
    under the new name and date that are not rows of the visit being edited. *)
Definition collision_mask (owner old_name old_session_date
                           name session_date : string) (r : Row) : bool :=
  (Owner r == owner) && (Name r == name) && (Session_Date r == session_date)
  && negb ((Name r == old_name) && (Session_Date r == old_session_date)).

(** [edit_faculty].  The new date is the text [str(new_session_date)]. *)
Definition edit_faculty (clk : Clock)
    (owner old_name old_session_date
     new_name new_designation new_session_name new_session_date : string)
    : IO (string * option DataFrame) :=
  df <- load_data clk ;;
  if strip new_name == "" then ret ("Name cannot be empty", None)
  else
    let existing :=
      filter (collision_mask owner old_name old_session_date
                (strip new_name) new_session_date) df in
    if negb (empty existing) then
      ret ("Faculty with this name and session date already exists", None)
    else
      let mask := visit_mask owner old_name old_session_date in
      if empty (filter mask df) then ret ("Faculty not found", None)
      else
        let timestamp := stamp clk in
        let df :=
          map (fun r => if mask r
                        then renamed owner new_name new_designation
                               new_session_name new_session_date timestamp r
                        else r) df in
        save_data df ;;;
        ret ("Success", Some df).

(* ================================================================== *)
(** ** Summary *)

Module PyFloat.

Open Scope Z_scope.

(** [float(n)] for a count *)
Definition of_count (n : nat) : float :=
  PrimFloat.of_uint63 (Uint63.of_Z (Z.of_nat n)).

(** Nearest integer to [num / den], ties to the even one ([0 <= num], [0 < den]). *)
Definition round_half_even (num den : Z) : Z :=
  let q := num / den in
  let r := num mod den in
  match 2 * r ?= den with
  | Lt => q
  | Gt => q + 1
  | Eq => if Z.even q then q else q + 1
  end.

(** The double nearest to [k / 10]. *)
Definition tenth (k : Z) : float :=
  PrimFloat.div (PrimFloat.of_uint63 (Uint63.of_Z k))
                (PrimFloat.of_uint63 (Uint63.of_Z 10)).

(** [round(x, 1)] on a float: the exact binary value [m * 2^e] of [x] is
    rounded to the nearest multiple of one tenth, ties to even, and the
    result is the double nearest to that decimal. *)
Definition round1 (x : float) : float :=
  match Prim2SF x with
  | S754_finite s m e =>
      let tenths :=
        if 0 <=? e then Zpos m * 2 ^ e * 10
        else round_half_even (Zpos m * 10) (2 ^ (- e)) in
      if s then PrimFloat.opp (tenth tenths) else tenth tenths
  | _ => x
  end.

(** [done / total_items * 100] *)
Definition percentage (done total_items : nat) : float :=
  PrimFloat.mul (PrimFloat.div (of_count done) (of_count total_items))
                (of_count 100).

(** [round((done / total_items * 100) if total_items > 0 else 0, 1)] *)
Definition progress (done total_items : nat) : float :=
  round1 (if Nat.ltb 0 total_items then percentage done total_items
          else of_count 0).




End PyFloat.

(** A row of [df[["Owner", "Name", "Session Date", "Designation", "Session Name"]]]. *)
Record Faculty : Type := mkFaculty {
  fac_Owner : string;
  fac_Name : string;
  fac_Session_Date : string;
  fac_Designation : string;
  fac_Session_Name : string
}.

Definition faculty_of (r : Row) : Faculty :=
  mkFaculty (Owner r) (Name r) (Session_Date r) (Designation r) (Session_Name r).

Definition faculty_eqb (a b : Faculty) : bool :=
  (fac_Owner a == fac_Owner b) && (fac_Name a == fac_Name b)
  && (fac_Session_Date a == fac_Session_Date b)
  && (fac_Designation a == fac_Designation b)
  && (fac_Session_Name a == fac_Session_Name b).

(** A line of the frame [get_faculty_summary] returns. *)
Record Summary : Type := mkSummary {
  sum_Owner : string;
  sum_Name : string;
  sum_Designation : string;
  sum_Session_Name : string;
  sum_Session_Date : string;
  sum_Total_Items : nat;
  sum_Done : nat;
  sum_Pending : nat;
  sum_NA : nat;
  sum_Progress : float
}.

(** [len(faculty_data[faculty_data["Status"] == s])] *)
Definition count_status (s : string) (faculty_data : DataFrame) : nat :=
  List.length (filter (fun r => Status r == s) faculty_data).

(** The body of the [for _, faculty in faculty_list.iterrows()] loop. *)
Definition summarize_faculty (df : DataFrame) (faculty : Faculty) : Summary :=
  let faculty_data :=
    filter (visit_mask (fac_Owner faculty) (fac_Name faculty)
                       (fac_Session_Date faculty)) df in
  let total_items := List.length faculty_data in
  let done := count_status "Done" faculty_data in
  let pending := count_status "Pending" faculty_data in
  let na := count_status "NA" faculty_data in
  {| sum_Owner := fac_Owner faculty; sum_Name := fac_Name faculty;
     sum_Designation := fac_Designation faculty;
     sum_Session_Name := fac_Session_Name faculty;
     sum_Session_Date := fac_Session_Date faculty;
     sum_Total_Items := total_items; sum_Done := done;
     sum_Pending := pending; sum_NA := na;
     sum_Progress := PyFloat.progress done total_items |}.

Definition get_faculty_summary (df : DataFrame) : list Summary :=
  let faculty_list := drop_duplicates faculty_eqb (map faculty_of df) in
  map (summarize_faculty df) faculty_list.

(* ================================================================== *)
(** ** Access rule *)

(** The frame every view of a logged-in session works on:
    [if current_role != 'admin': df = df[df['Owner'] == current_user]]. *)
Definition visible (current_role current_user : string) (df : DataFrame)
    : DataFrame :=
  if negb (current_role == "admin")
  then filter (fun r => Owner r == current_user) df
  else df.

(* ================================================================== *)
(** ** User store *)

Section Users.

(** [hash_password]: the hexadecimal SHA-256 digest of the password. *)
Variable hash_password : string -> string.

Definition default_admin (clk : Clock) : User :=
  {| username := "admin"; password := hash_password "admin123";
     role := "admin"; full_name := "Administrator";
     email := "admin@example.com"; created_date := stamp clk;
     active := true |}.

Definition initialize_users (clk : Clock) : IO unit :=
  fun w =>
    match users_file w with
    | None => (Return tt, with_users_file (Some [default_admin clk]) w)
    | Some _ => (Return tt, w)
    end.

Definition load_users (clk : Clock) : IO UsersFrame :=
  initialize_users clk ;;;
  fun w =>
    match users_file w with
    | Some users_df => (Return users_df, w)
    | None => (Raise FileNotFoundError, w)
    end.

Definition save_users (df : UsersFrame) : IO unit :=
  fun w => (Return tt, with_users_file (Some df) w).

(** [authenticate_user]: the triple it returns is
    (success, role or [None], full name or message or [None]). *)
Definition authenticate_user (clk : Clock) (username0 password0 : string)
    : IO (bool * option string * option string) :=
  users_df <- load_users clk ;;
  let user := filter (fun u => username u == username0) users_df in
  match user with
  | [] => ret (false, None, None)
  | user :: _ =>
      if negb (active user) then ret (false, None, Some "Account is inactive")
      else if password user == hash_password password0
      then ret (true, Some (role user), Some (full_name user))
      else ret (false, None, Some "Invalid password")
  end.

(** [add_user] *)
Definition add_user (clk : Clock)
    (username0 password0 role0 full_name0 email0 : string)
    : IO (bool * string) :=
  users_df <- load_users clk ;;
  if existsb (fun u => username u == username0) users_df
  then ret (false, "Username already exists")
  else
    let new_user :=
      {| username := username0; password := hash_password password0;
         role := role0; full_name := full_name0; email := email0;
         created_date := stamp clk; active := true |} in
    let users_df := users_df ++ [new_user] in
    save_users users_df ;;;
    ret (true, "User added successfully").

Definition set_full_name (v : string) (u : User) : User :=
  mkUser (username u) (password u) (role u) v (email u) (created_date u) (active u).

Definition set_email (v : string) (u : User) : User :=
  mkUser (username u) (password u) (role u) (full_name u) v (created_date u) (active u).

Definition set_password (v : string) (u : User) : User :=
  mkUser (username u) v (role u) (full_name u) (email u) (created_date u) (active u).

Definition set_active (v : bool) (u : User) : User :=
  mkUser (username u) (password u) (role u) (full_name u) (email u) (created_date u) v.

(** [if x:] on an optional text argument: [None] and the empty string are
    both false. *)
Definition given (x : option string) : option string :=
  match x with
  | Some s => if truthy s then Some s else None
  | None => None
  end.

(** [update_user]; an argument left at its default is [None]. *)
Definition update_user (clk : Clock) (username0 : string)
    (full_name0 email0 password0 : option string) (active0 : option bool)
    : IO (bool * string) :=
  users_df <- load_users clk ;;
  match first_index (fun u => username u == username0) users_df with
  | None => ret (false, "User not found")
  | Some idx =>
      let users_df :=
        match given full_name0 with
        | Some v => set_at idx (set_full_name v) users_df
        | None => users_df
        end in
      let users_df :=
        match given email0 with
        | Some v => set_at idx (set_email v) users_df
        | None => users_df
        end in
      let users_df :=
        match given password0 with
        | Some v => set_at idx (set_password (hash_password v)) users_df
        | None => users_df
        end in
      let users_df :=
        match active0 with
        | Some v => set_at idx (set_active v) users_df
        | None => users_df
        end in
      save_users users_df ;;;
      ret (true, "User updated successfully")
  end.

(** [delete_user] *)
Definition delete_user (clk : Clock) (username0 : string) : IO (bool * string) :=
  users_df <- load_users clk ;;
  if username0 == "admin" then ret (false, "Cannot delete admin account")
  else
    df <- load_data clk ;;
    let df := filter (fun r => negb (Owner r == username0)) df in
    save_data df ;;;
    let users_df := filter (fun u => negb (username u == username0)) users_df in
    save_users users_df ;;;
    ret (true, "User deleted successfully").

End Users.

(* ================================================================== *)
(** ** Session and button handlers

    The script re-runs from the top on every interaction; the code under a
    button is embedded as a step that takes what the run has computed so
    far (the session state, the selection) and returns what it leaves. *)

Module Session.

(** The four identity keys of [st.session_state]. *)
Record state : Type := mk {
  logged_in : bool;
  username : option string;
  role : option string;
  full_name : option string
}.

(** The values the script gives them when they are not yet there. *)
Definition initial : state := mk false None None None.

End Session.

(** What a handler shows: [st.success] or [st.error]. *)
Inductive notice : Type :=
| success (text : string)
| error (text : string).

(** The Login button of [show_login_page]. *)
Definition login_button (hash_password : string -> string) (clk : Clock)
    (username0 password0 : string) (ss : Session.state)
    : IO (Session.state * notice) :=
  if truthy username0 && truthy password0 then
    r <- authenticate_user hash_password clk username0 password0 ;;
    match r with
    | (true, role0, full_name0) =>
        ret (Session.mk true (Some username0) role0 full_name0,
             success ("Welcome, "
                      ++ match full_name0 with Some n => n | None => "None" end
                      ++ "!"))
    | (false, _, full_name0) =>
        match given full_name0 with
        | Some m => ret (ss, error m)
        | None => ret (ss, error "Invalid username or password")
        end
    end
  else ret (ss, error "Please enter both username and password").

(** The Logout button of the sidebar. *)
Definition logout_button (ss : Session.state) : Session.state :=
  Session.mk false None None None.

(** The mask of the Apply Bulk Action button: name and date of the selected
    faculty, and the owner too unless the role is admin. *)
Definition bulk_mask (current_role current_user selected_name selected_date
                      : string) (r : Row) : bool :=
  let mask := (Name r == selected_name) && (Session_Date r == selected_date) in
  if negb (current_role == "admin") then mask && (Owner r == current_user)
  else mask.

(** The assignments of the button on one selected row: the status or the
    remarks by the action, then the two stamps. *)
Definition bulk_row (bulk_action current_user timestamp : string) (r : Row) : Row :=
  let status :=
    if bulk_action == "Mark All as Done" then "Done"
    else if bulk_action == "Mark All as Pending" then "Pending"
    else Status r in
  let remarks :=
    if bulk_action == "Mark All as Done" then Remarks r
    else if bulk_action == "Mark All as Pending" then Remarks r
    else if bulk_action == "Clear All Remarks" then ""
    else Remarks r in
  {| Owner := Owner r; Name := Name r; Designation := Designation r;
     Session_Name := Session_Name r; Session_Date := Session_Date r;
     Checklist_Item := Checklist_Item r; Status := status; Remarks := remarks;
     Last_Updated := timestamp; Updated_By := current_user |}.

(** The Apply Bulk Action button: it works on the frame cached in the
    session, [st.session_state.df], which it returns updated, and saves it. *)
Definition apply_bulk_action (clk : Clock)
    (current_role current_user selected_name selected_date bulk_action : string)
    (session_df : DataFrame) : IO DataFrame :=
  if negb (bulk_action == "None") then
    let timestamp := stamp clk in
    let mask := bulk_mask current_role current_user selected_name selected_date in
    let session_df :=
      map (fun r => if mask r then bulk_row bulk_action current_user timestamp r
                    else r) session_df in
    save_data session_df ;;;
    ret session_df
  else ret session_df.

(* ================================================================== *)
(** ** Vocabulary of the properties *)

(** The tuple that identifies a checklist line. *)
Definition row_key (r : Row) : string * string * string * string :=
  (Owner r, Name r, Session_Date r, Checklist_Item r).


(** The account [update_user] leaves in place of [u]: the four conditional
    assignments in their order. *)
Definition updated (hash_password : string -> string)
    (full_name0 email0 password0 : option string) (active0 : option bool)
    (u : User) : User :=
  let u := match given full_name0 with
           | Some v => set_full_name v u
           | None => u
           end in
  let u := match given email0 with
           | Some v => set_email v u
           | None => u
           end in
  let u := match given password0 with
           | Some v => set_password (hash_password v) u
           | None => u
           end in
  match active0 with
  | Some v => set_active v u
  | None => u
  end.

(* ================================================================== *)
(** ** Sample worlds

    Concrete stores on which the statements below are evaluated. *)

Module Sample.

Definition clk : Clock := mkClock "2024-05-01 10:00:00" "2024-05-01".

Definition line (owner name date item status : string) : Row :=
  {| Owner := owner; Name := name; Designation := "Professor";
     Session_Name := "Ethics"; Session_Date := date; Checklist_Item := item;
     Status := status; Remarks := ""; Last_Updated := "2024-04-01 09:00:00";
     Updated_By := owner |}.

(** One visit of owner bob, with a single checklist line. *)
Definition one_visit : DataFrame :=
  [ line "bob" "Dr Rao" "2024-06-01" "Room Book" "Pending" ].

(** Two owners, three visits, two checklist items. *)
Definition three_visits : DataFrame :=
  [ line "bob" "Dr Rao" "2024-06-01" "Room Book" "Done";
    line "bob" "Dr Rao" "2024-06-01" "Name Plate" "Pending";
    line "eve" "Dr Rao" "2024-06-01" "Room Book" "NA";
    line "bob" "Dr Sen" "2024-07-15" "Room Book" "Pending" ].


(** A stand-in for the digest, enough to tell passwords apart. *)
Definition digest (s : string) : string := "sha256:" ++ s.

Definition accounts : UsersFrame :=
  [ {| username := "admin"; password := digest "admin123"; role := "admin";
       full_name := "Administrator"; email := "admin@example.com";
       created_date := "2024-01-01 08:00:00"; active := true |};
    {| username := "bob"; password := digest "s3cret"; role := "user";
       full_name := "Bob Roy"; email := "bob@example.com";
       created_date := "2024-02-01 08:00:00"; active := true |};
    {| username := "eve"; password := digest "pa55"; role := "user";
       full_name := "Eve Das"; email := "eve@example.com";
       created_date := "2024-02-02 08:00:00"; active := false |} ].

(** A world whose record file holds [df], with the three accounts and no
    seed workbook. *)
Definition world (df : DataFrame) : World :=
  {| data_file := Table all_columns df; users_file := Some accounts;
     workbook := NoWorkbook |}.

(** A world whose record file is zero bytes long and whose seed workbook
    lists checklist items but has no faculty column yet. *)
Definition bare_workbook : World :=
  {| data_file := ZeroLength; users_file := Some accounts;
     workbook := Workbook ["Room Book"; "Name Plate"] [] |}.

End Sample.

(* ================================================================== *)
(** * Properties *)

(** ** Text *)

Lemma all_space_lstrip (s : string) : all_space (lstrip s) = all_space s.
Proof.
  induction s as [|c t IH]; simpl; [reflexivity|].
  destruct (is_space c) eqn:E; simpl; [exact IH | now rewrite E].
Qed.

Lemma rstrip_empty (s : string) : rstrip s = "" <-> all_space s = true.
Proof.
  induction s as [|c t IH]; simpl; [tauto|].
  destruct (rstrip t) eqn:R.
  - destruct (is_space c); simpl.
    + split; intros _; [now apply IH | reflexivity].
    + split; discriminate.
  - split; [discriminate|].
    intros H. apply andb_true_iff in H as [_ H].
    apply IH in H. discriminate.
Qed.

(** [name.strip() == ""] exactly when [name] is made of whitespace only. *)
Lemma strip_empty (s : string) : strip s = "" <-> all_space s = true.
Proof.
  unfold strip. rewrite rstrip_empty. now rewrite all_space_lstrip.
Qed.

Lemma strip_eqb_blank (s : string) : (strip s == "") = all_space s.
Proof.
  destruct (all_space s) eqn:E.
  - apply String.eqb_eq, strip_empty, E.
  - apply String.eqb_neq. intros H. apply strip_empty in H. congruence.
Qed.

(** ** Frames *)

Lemma empty_existsb {A : Type} (p : A -> bool) (l : list A) :
  empty (filter p l) = negb (existsb p l).
Proof.
  induction l as [|x t IH]; simpl; [reflexivity|].
  destruct (p x); simpl; [reflexivity | exact IH].
Qed.


Section DropDuplicates.

Context {A : Type} (eqb : A -> A -> bool).
Hypothesis eqb_spec : forall x y, eqb x y = true <-> x = y.

Lemma drop_duplicates_In (l : list A) (x : A) :
  In x (drop_duplicates eqb l) <-> In x l.
Proof.
  induction l as [|y t IH]; simpl; [tauto|].
  rewrite filter_In, IH. split.
  - intros [H | [H _]]; auto.
  - intros [H | H]; [now left|].
    destruct (eqb y x) eqn:E.
    + left. now apply eqb_spec.
    + right. now split.
Qed.

Lemma drop_duplicates_NoDup (l : list A) : NoDup (drop_duplicates eqb l).
Proof.
  induction l as [|y t IH]; simpl; [constructor|].
  constructor.
  - rewrite filter_In. intros [_ H].
    assert (E : eqb y y = true) by now apply eqb_spec.
    rewrite E in H. discriminate.
  - now apply NoDup_filter.
Qed.

End DropDuplicates.


Lemma unique_NoDup (l : list string) : NoDup (unique l).
Proof. apply drop_duplicates_NoDup, String.eqb_eq. Qed.

(** ** Loading *)

(** A table with at least one row loads as it is stored (up to the
    back-filled columns) and the file is not touched. *)
Lemma load_data_table (clk : Clock) (w : World) (cols : Columns) (r : Row)
    (rows : DataFrame) :
  data_file w = Table cols (r :: rows) ->
  load_data clk w = (Return (backfill clk cols (r :: rows)), w).
Proof.
  intros H. unfold load_data, load_data_try. rewrite H. reflexivity.
Qed.


Lemma backfill_all (clk : Clock) (df : DataFrame) :
  backfill clk all_columns df = df.
Proof. reflexivity. Qed.

(** What [load_data] does once its [try] block has raised: the file is
    replaced by the seed and read again. *)
Lemma load_data_repair (clk : Clock) (w : World) (e : exn) :
  load_data_try clk w = Raise e ->
  load_data clk w =
    match seed_records clk (workbook w) with
    | [] => (Raise EmptyDataError,
             with_data_file (Unparsable EmptyDataError) w)
    | seed => (Return seed, with_data_file (Table all_columns seed) w)
    end.
Proof.
  intros H. unfold load_data. rewrite H.
  assert (C : caught e = true) by now destruct e.
  rewrite C. unfold initialize_data.
  rewrite orb_true_r.
  destruct (exists_file (data_file w)); simpl;
    destruct (seed_records clk (workbook w)); reflexivity.
Qed.


(* ================================================================== *)
(** ** Access rule *)

(** C1. The frame a session works on is the stored frame filtered by
    ownership unless the role is admin: a row is visible exactly when it is
    stored and the session is an admin's or the row's owner is the session's
    user; the visible rows keep their order and multiplicity; for a role
    other than admin every visible row is owned by the user; for the admin
    role the frame is the stored one. *)
Theorem visible_owner_filter (current_role current_user : string) (df : DataFrame) :
  (forall r, In r (visible current_role current_user df) <->
             In r df /\ (current_role = "admin" \/ Owner r = current_user))
  /\ visible current_role current_user df =
       filter (fun r => (current_role == "admin") || (Owner r == current_user)) df
  /\ (current_role <> "admin" ->
      Forall (fun r => Owner r = current_user)
             (visible current_role current_user df))
  /\ visible "admin" current_user df = df.
Proof.
  assert (F : visible current_role current_user df =
       filter (fun r => (current_role == "admin") || (Owner r == current_user)) df).
  { unfold visible. destruct (current_role == "admin") eqn:E; simpl.
    - induction df as [|x t IH]; simpl; [reflexivity | now rewrite <- IH].
    - reflexivity. }
  split; [|split; [exact F|split]].
  - intros r. rewrite F, filter_In, orb_true_iff, !String.eqb_eq. tauto.
  - intros NA. rewrite F. apply Forall_forall. intros r H.
    apply filter_In in H as [_ H]. apply orb_true_iff in H as [H|H].
    + apply String.eqb_eq in H. contradiction.
    + now apply String.eqb_eq.
  - reflexivity.
Qed.

(* ================================================================== *)
(** ** Input validation *)



(* ================================================================== *)
(** ** Creating a visit *)




(* ================================================================== *)
(** ** Renaming a visit *)

Lemma filter_none {A : Type} (p : A -> bool) (l : list A) :
  (forall x, In x l -> p x = false) -> filter p l = [].
Proof.
  induction l as [|x t IH]; simpl; intros H; [reflexivity|].
  rewrite (H x (or_introl eq_refl)). apply IH. intros y Hy. apply H. now right.
Qed.


Lemma visit_mask_true (owner name session_date : string) (r : Row) :
  visit_mask owner name session_date r = true <->
  Owner r = owner /\ Name r = name /\ Session_Date r = session_date.
Proof.
  unfold visit_mask. rewrite !andb_true_iff, !String.eqb_eq. tauto.
Qed.




(* ================================================================== *)
(** ** Deleting a visit *)




(* ================================================================== *)
(** ** User store *)

Lemma filter_filter_implied {A : Type} (p q : A -> bool) (l : list A) :
  (forall x, p x = true -> q x = true) ->
  filter p (filter q l) = filter p l.
Proof.
  intros H. induction l as [|x t IH]; simpl; [reflexivity|].
  destruct (q x) eqn:Q; simpl.
  - now rewrite IH.
  - destruct (p x) eqn:P; [|exact IH].
    apply H in P. congruence.
Qed.

(** [df[mask].iloc[0]] is the first row the mask selects. *)
Lemma filter_first {A : Type} (p : A -> bool) (l : list A) :
  match filter p l with
  | [] => find p l = None
  | x :: _ => find p l = Some x
  end.
Proof.
  induction l as [|x t IH]; simpl; [reflexivity|].
  destruct (p x); [reflexivity | exact IH].
Qed.

Lemma find_none_iff {A : Type} (p : A -> bool) (l : list A) :
  find p l = None <-> forall x, In x l -> p x = false.
Proof.
  split; [apply find_none|].
  induction l as [|x t IH]; simpl; intros H; [reflexivity|].
  rewrite (H x (or_introl eq_refl)). apply IH. intros y Hy. apply H. now right.
Qed.

Section UsersProperties.

Variable hash_password : string -> string.

(** An existing users file is read as it is, and not written. *)
Lemma load_users_existing (clk : Clock) (w : World) (users : UsersFrame) :
  users_file w = Some users ->
  load_users hash_password clk w = (Return users, w).
Proof.
  intros H. unfold load_users, bind, initialize_users. now rewrite H, H.
Qed.

(** C5. On the accounts [users] that [load_users] returns,
    [authenticate_user] answers by the first account under the username:
    the not-found triple (False, None, None) when there is none; "Account is
    inactive" when it is not active, whatever the password; "Invalid
    password" when it is active and its stored hash differs from the hash of
    the password given; and otherwise success with the account's role and
    full name.  Nothing is written after the load. *)
Theorem authenticate_user_spec (clk : Clock) (w w1 : World) (users : UsersFrame)
    (username0 password0 : string) :
  load_users hash_password clk w = (Return users, w1) ->
  ((forall u, In u users -> username u <> username0) ->
   authenticate_user hash_password clk username0 password0 w
     = (Return (false, None, None), w1))
  /\ (forall u,
        find (fun u => username u == username0) users = Some u ->
        In u users /\ username u = username0
        /\ (active u = false ->
            authenticate_user hash_password clk username0 password0 w
              = (Return (false, None, Some "Account is inactive"), w1))
        /\ (active u = true ->
            password u <> hash_password password0 ->
            authenticate_user hash_password clk username0 password0 w
              = (Return (false, None, Some "Invalid password"), w1))
        /\ (active u = true ->
            password u = hash_password password0 ->
            authenticate_user hash_password clk username0 password0 w
              = (Return (true, Some (role u), Some (full_name u)), w1))).
Proof.
  intros L. unfold authenticate_user, bind. rewrite L.
  pose proof (filter_first (fun u => username u == username0) users) as F.
  split.
  - intros N.
    assert (E : find (fun u => username u == username0) users = None).
    { apply find_none_iff. intros u Hu. apply String.eqb_neq. now apply N. }
    destruct (filter (fun u => username u == username0) users);
      [reflexivity | congruence].
  - intros u Hf.
    pose proof (find_some _ _ Hf) as [Hin Hn]. apply String.eqb_eq in Hn.
    destruct (filter (fun u => username u == username0) users) as [|v rest];
      [congruence|].
    assert (v = u) by congruence. subst v.
    split; [exact Hin|]. split; [exact Hn|].
    split; [|split].
    + intros A. now rewrite A.
    + intros A P. rewrite A. simpl.
      apply String.eqb_neq in P. now rewrite P.
    + intros A P. rewrite A. simpl.
      apply String.eqb_eq in P. now rewrite P.
Qed.


End UsersProperties.

Lemma authenticate_user_spec_witness :
  authenticate_user Sample.digest Sample.clk "bob" "s3cret"
    (Sample.world Sample.one_visit)
    = (Return (true, Some "user", Some "Bob Roy"), Sample.world Sample.one_visit)
  /\ authenticate_user Sample.digest Sample.clk "eve" "pa55"
       (Sample.world Sample.one_visit)
     = (Return (false, None, Some "Account is inactive"),
        Sample.world Sample.one_visit)
  /\ authenticate_user Sample.digest Sample.clk "bob" "guess"
       (Sample.world Sample.one_visit)
     = (Return (false, None, Some "Invalid password"),
        Sample.world Sample.one_visit)
  /\ authenticate_user Sample.digest Sample.clk "mallory" "x"
       (Sample.world Sample.one_visit)
     = (Return (false, None, None), Sample.world Sample.one_visit).
Proof.
  pose proof (fun n p =>
    authenticate_user_spec Sample.digest Sample.clk
      (Sample.world Sample.one_visit) (Sample.world Sample.one_visit)
      Sample.accounts n p eq_refl) as S.
  split; [|split; [|split]].
  - destruct (S "bob" "s3cret") as [_ H].
    destruct (H _ eq_refl) as (_ & _ & _ & _ & Ok). now apply Ok.
  - destruct (S "eve" "pa55") as [_ H].
    destruct (H _ eq_refl) as (_ & _ & Off & _). now apply Off.
  - destruct (S "bob" "guess") as [_ H].
    destruct (H _ eq_refl) as (_ & _ & _ & Bad & _).
    apply Bad; [reflexivity | discriminate].
  - destruct (S "mallory" "x") as [H _]. apply H.
    intros u [<-|[<-|[<-|[]]]]; discriminate.
Defined.


(* ================================================================== *)
(** ** Updating an account *)

Lemma set_at_length {A : Type} (idx : nat) (f : A -> A) (l : list A) :
  List.length (set_at idx f l) = List.length l.
Proof.
  revert idx. induction l as [|x t IH]; intros [|i]; simpl; auto.
Qed.

Lemma set_at_other {A : Type} (idx j : nat) (f : A -> A) (l : list A) :
  j <> idx -> nth_error (set_at idx f l) j = nth_error l j.
Proof.
  revert idx j. induction l as [|x t IH]; intros [|i] [|j] H; simpl;
    try reflexivity; try congruence.
  apply IH. congruence.
Qed.

Lemma set_at_same {A : Type} (idx : nat) (f : A -> A) (l : list A) (u : A) :
  nth_error l idx = Some u -> nth_error (set_at idx f l) idx = Some (f u).
Proof.
  revert idx. induction l as [|x t IH]; intros [|i] H; simpl in *;
    try discriminate.
  - now injection H as ->.
  - now apply IH.
Qed.

Lemma set_at_set_at {A : Type} (idx : nat) (f g : A -> A) (l : list A) :
  set_at idx f (set_at idx g l) = set_at idx (fun x => f (g x)) l.
Proof.
  revert idx. induction l as [|x t IH]; intros [|i]; simpl; auto.
  now rewrite IH.
Qed.

Lemma first_index_none {A : Type} (p : A -> bool) (l : list A) :
  (forall x, In x l -> p x = false) -> first_index p l = None.
Proof.
  induction l as [|x t IH]; simpl; intros H; [reflexivity|].
  rewrite (H x (or_introl eq_refl)), IH; [reflexivity|].
  intros y Hy. apply H. now right.
Qed.

(** [first_index] finds the first selected row when there is one. *)
Lemma first_index_found {A : Type} (p : A -> bool) (l : list A) (x : A) :
  In x l -> p x = true ->
  exists idx u,
    first_index p l = Some idx /\ nth_error l idx = Some u /\ p u = true
    /\ (forall j v, j < idx -> nth_error l j = Some v -> p v = false).
Proof.
  induction l as [|y t IH]; simpl; [tauto|]. intros Hin Hp.
  destruct (p y) eqn:Py.
  - exists 0, y. repeat split; auto. intros j v Hj. lia.
  - destruct Hin as [-> | Hin]; [congruence|].
    destruct (IH Hin Hp) as (idx & u & F & N & Pu & Before).
    exists (S idx), u. rewrite F. repeat split; auto.
    intros [|j] v Hj Hv; simpl in Hv.
    + now injection Hv as <-.
    + apply (Before j); [lia | exact Hv].
Qed.

Section UpdateUser.

Variable hash_password : string -> string.

(** The claim C7 as worded fails on a field supplied as the empty string:
    the full name, the email and the password are all passed, none is
    written, and the accounts are saved as they were. *)
Lemma update_user_empty_field_unchanged (clk : Clock) (w : World)
    (u : User) (rest : UsersFrame) :
  users_file w = Some (u :: rest) ->
  update_user hash_password clk (username u) (Some "") (Some "") (Some "") None w
    = (Return (true, "User updated successfully"),
       with_users_file (Some (u :: rest)) w).
Proof.
  intros H. unfold update_user, bind.
  rewrite (load_users_existing hash_password clk w _ H).
  simpl. rewrite String.eqb_refl. reflexivity.
Qed.

(** C7, amended. [update_user] answers "User not found" and writes nothing
    when no account bears the username.  Otherwise it rewrites the first
    account under that username and saves the accounts: the full name, the
    email and the password are overwritten exactly when the argument is
    supplied and is not the empty string (the password by the hash of the
    new one), the active flag exactly when it is supplied; the username,
    the role and the creation date are kept; every other account, and the
    number of accounts, is as before. *)
Theorem update_user_spec (clk : Clock) (w w1 : World) (users : UsersFrame)
    (username0 : string) (full_name0 email0 password0 : option string)
    (active0 : option bool) :
  load_users hash_password clk w = (Return users, w1) ->
  ((forall u, In u users -> username u <> username0) ->
   update_user hash_password clk username0 full_name0 email0 password0 active0 w
     = (Return (false, "User not found"), w1))
  /\ ((exists u, In u users /\ username u = username0) ->
      exists idx u users' u',
        nth_error users idx = Some u /\ username u = username0
        /\ (forall j v, j < idx -> nth_error users j = Some v ->
                        username v <> username0)
        /\ update_user hash_password clk username0
             full_name0 email0 password0 active0 w
           = (Return (true, "User updated successfully"),
              with_users_file (Some users') w1)
        /\ List.length users' = List.length users
        /\ (forall j, j <> idx -> nth_error users' j = nth_error users j)
        /\ nth_error users' idx = Some u'
        /\ username u' = username u /\ role u' = role u
        /\ created_date u' = created_date u
        /\ full_name u' = match full_name0 with
                          | Some v => if v == "" then full_name u else v
                          | None => full_name u
                          end
        /\ email u' = match email0 with
                      | Some v => if v == "" then email u else v
                      | None => email u
                      end
        /\ password u' = match password0 with
                         | Some v => if v == "" then password u
                                     else hash_password v
                         | None => password u
                         end
        /\ active u' = match active0 with
                       | Some v => v
                       | None => active u
                       end).
Proof.
  intros L. split.
  - intros N. unfold update_user, bind. rewrite L.
    rewrite first_index_none; [reflexivity|].
    intros u Hu. apply String.eqb_neq. now apply N.
  - intros (x & Hin & Hx).
    destruct (first_index_found (fun u => username u == username0) users x Hin)
      as (idx & u & F & N & Pu & Before); [now apply String.eqb_eq|].
    apply String.eqb_eq in Pu.
    destruct u as [un pw rl fn em cd ac].
    exists idx, (mkUser un pw rl fn em cd ac).
    unfold update_user, bind. rewrite L, F.
    eexists.
    exists (mkUser un
              (match given password0 with
               | Some v => hash_password v
               | None => pw
               end) rl
              (match given full_name0 with Some v => v | None => fn end)
              (match given email0 with Some v => v | None => em end) cd
              (match active0 with Some v => v | None => ac end)).
    split; [exact N|]. split; [exact Pu|].
    split; [intros j v Hj Hv; apply String.eqb_neq; eauto|].
    split; [reflexivity|].
    simpl in *.
    destruct full_name0 as [[|c1 s1]|], email0 as [[|c2 s2]|],
             password0 as [[|c3 s3]|], active0 as [b|]; simpl;
      rewrite ?set_at_set_at;
      (split; [rewrite ?set_at_length; reflexivity|]);
      (split; [intros j Hj; rewrite ?set_at_other by exact Hj; reflexivity|]);
      (split; [first [ erewrite set_at_same by exact N; reflexivity
                     | exact N ]|]);
      repeat split.
Qed.

End UpdateUser.

(** At the sample accounts: bob's full name, email and password are passed
    as empty strings; the call succeeds, and the accounts, bob's full name
    among them, are saved as they were. *)
Lemma update_user_empty_field_counterexample :
  update_user Sample.digest Sample.clk "bob" (Some "") (Some "") (Some "") None
    (Sample.world Sample.one_visit)
  = (Return (true, "User updated successfully"), Sample.world Sample.one_visit)
  /\ users_file (Sample.world Sample.one_visit) = Some Sample.accounts
  /\ map full_name (filter (fun u => username u == "bob") Sample.accounts)
     = ["Bob Roy"].
Proof. repeat split. Qed.

Lemma update_user_spec_witness :
  exists users' u',
    update_user Sample.digest Sample.clk "bob"
      (Some "Robert Roy") (Some "") (Some "n3w") None
      (Sample.world Sample.one_visit)
      = (Return (true, "User updated successfully"),
         with_users_file (Some users') (Sample.world Sample.one_visit))
    /\ nth_error users' 1 = Some u'
    /\ full_name u' = "Robert Roy" /\ email u' = "bob@example.com"
    /\ password u' = Sample.digest "n3w" /\ active u' = true
    /\ nth_error users' 0 = nth_error Sample.accounts 0
    /\ nth_error users' 2 = nth_error Sample.accounts 2.
Proof.
  destruct (update_user_spec Sample.digest Sample.clk
              (Sample.world Sample.one_visit) (Sample.world Sample.one_visit)
              Sample.accounts "bob" (Some "Robert Roy") (Some "") (Some "n3w")
              None eq_refl) as [_ H].
  destruct H as (idx & u & users' & u' & N & Un & Before & E & _ & Other & Same
                 & _ & _ & _ & Fn & Em & Pw & Ac).
  { eexists. split; [right; left; reflexivity | reflexivity]. }
  assert (I : idx = 1).
  { destruct idx as [|[|idx]]; [exfalso | reflexivity | exfalso].
    - simpl in N. injection N as <-. discriminate Un.
    - apply (Before 1 _ ltac:(lia) eq_refl). reflexivity. }
  subst idx. simpl in N. injection N as <-.
  exists users', u'.
  split; [exact E|]. split; [exact Same|].
  split; [exact Fn|]. split; [exact Em|]. split; [exact Pw|].
  split; [exact Ac|].
  split; apply Other; discriminate.
Defined.

(* ================================================================== *)
(** ** Summary *)

Lemma faculty_eqb_eq (a b : Faculty) : faculty_eqb a b = true <-> a = b.
Proof.
  destruct a, b. unfold faculty_eqb. simpl.
  rewrite !andb_true_iff, !String.eqb_eq. split.
  - intros ((((-> & ->) & ->) & ->) & ->). reflexivity.
  - intros H. injection H as -> -> -> -> ->. tauto.
Qed.





(* ================================================================== *)
(** ** Repairing the record file *)

(** C8, at the input where the code departs from it. The record file is
    zero bytes long and the seed workbook lists checklist items but no
    faculty column: the seed has no record, the file written for it cannot
    be read back, and [load_data] raises [EmptyDataError] to its caller. *)
Theorem load_data_bare_workbook_raises (clk : Clock) :
  seed_records clk (workbook Sample.bare_workbook) = []
  /\ load_data clk Sample.bare_workbook
     = (Raise EmptyDataError,
        with_data_file (Unparsable EmptyDataError) Sample.bare_workbook).
Proof. split; reflexivity. Qed.



(* ================================================================== *)
(** * Further properties of the code *)

(** ** Loading and saving *)

(** A saved frame with at least one row is loaded back as it was saved. *)
Lemma load_data_saved (clk : Clock) (w : World) (df : DataFrame) :
  df <> [] ->
  load_data clk (with_data_file (Table all_columns df) w)
    = (Return df, with_data_file (Table all_columns df) w).
Proof.
  intros NE. destruct df as [|r rows]; [congruence|].
  now rewrite (load_data_table clk
                 (with_data_file (Table all_columns (r :: rows)) w)
                 all_columns r rows eq_refl), backfill_all.
Qed.

Lemma backfill_length (clk : Clock) (cols : Columns) (df : DataFrame) :
  List.length (backfill clk cols df) = List.length df.
Proof.
  unfold backfill.
  destruct (has_Owner cols), (has_Last_Updated cols), (has_Updated_By cols);
    now rewrite ?length_map.
Qed.

(** What [load_data] returns, case by case. *)
Lemma load_data_cases (clk : Clock) (w w' : World) (df : DataFrame) :
  load_data clk w = (Return df, w') ->
  (exists cols r rows,
      data_file w = Table cols (r :: rows) /\ w' = w
      /\ df = backfill clk cols (r :: rows))
  \/ (df = seed_records clk (workbook w) /\ df <> []
      /\ w' = with_data_file (Table all_columns df) w).
Proof.
  intros L.
  destruct (load_data_try clk w) as [df0|e] eqn:T.
  - left. unfold load_data in L. rewrite T in L. injection L as <- <-.
    unfold load_data_try in T.
    destruct (data_file w) as [| |e|cols rows] eqn:F; simpl in T;
      try discriminate.
    destruct rows as [|r rows]; simpl in T; [discriminate|].
    injection T as <-. exists cols, r, rows. auto.
  - right. rewrite (load_data_repair clk w e T) in L.
    destruct (seed_records clk (workbook w)) as [|r rows] eqn:S;
      [discriminate|].
    injection L as <- <-. repeat split. discriminate.
Qed.


(** [load_data] never returns an empty frame; after it the record file is a
    table with rows, the other files are untouched, and loading again at
    the same time returns the same frame and writes nothing. *)
Theorem load_data_stable (clk : Clock) (w w' : World) (df : DataFrame) :
  load_data clk w = (Return df, w') ->
  df <> []
  /\ (exists cols rows,
        data_file w' = Table cols rows /\ List.length rows = List.length df)
  /\ users_file w' = users_file w
  /\ workbook w' = workbook w
  /\ load_data clk w' = (Return df, w').
Proof.
  intros L.
  destruct (load_data_cases clk w w' df L)
    as [(cols & r & rows & F & -> & ->) | (S & NE & ->)].
  - split; [|split; [|split; [|split]]]; auto.
    + intros E. apply (f_equal (@List.length Row)) in E.
      rewrite backfill_length in E. discriminate.
    + exists cols, (r :: rows). split; [exact F|].
      now rewrite backfill_length.
  - split; [exact NE|]. split; [|split; [|split]]; try reflexivity.
    + exists all_columns, df. split; reflexivity.
    + now apply load_data_saved.
Qed.

Lemma load_data_stable_witness :
  load_data Sample.clk (mkWorld Missing None NoWorkbook)
    = (Return (map (sample_record Sample.clk) default_checklist_items),
       mkWorld (Table all_columns
                  (map (sample_record Sample.clk) default_checklist_items))
               None NoWorkbook)
  /\ load_data Sample.clk
       (mkWorld (Table all_columns
                   (map (sample_record Sample.clk) default_checklist_items))
                None NoWorkbook)
     = (Return (map (sample_record Sample.clk) default_checklist_items),
        mkWorld (Table all_columns
                   (map (sample_record Sample.clk) default_checklist_items))
                None NoWorkbook).
Proof.
  split; [reflexivity|].
  apply (load_data_stable Sample.clk (mkWorld Missing None NoWorkbook)).
  reflexivity.
Defined.

Lemma Forall2_map_right {A B : Type} (P : A -> B -> Prop) (f : A -> B)
    (l : list A) :
  (forall x, P x (f x)) -> Forall2 P l (map f l).
Proof. intros H. induction l; simpl; constructor; auto. Qed.

(** A table with rows that lacks backward-compatibility columns is loaded
    with the owner "admin", the time of the load and the updater "System"
    in their place, the cells of the columns it has being kept; the load
    does not write the file.  When the owner column was missing, a session
    of any other user that is not an admin sees no row at all. *)
Theorem load_data_backfills (clk : Clock) (w : World) (cols : Columns)
    (r : Row) (rows : DataFrame) :
  data_file w = Table cols (r :: rows) ->
  exists df,
    load_data clk w = (Return df, w)
    /\ Forall2
         (fun stored loaded =>
            Owner loaded = (if has_Owner cols then Owner stored else "admin")
            /\ Last_Updated loaded
               = (if has_Last_Updated cols then Last_Updated stored
                  else stamp clk)
            /\ Updated_By loaded
               = (if has_Updated_By cols then Updated_By stored else "System")
            /\ Name loaded = Name stored
            /\ Designation loaded = Designation stored
            /\ Session_Name loaded = Session_Name stored
            /\ Session_Date loaded = Session_Date stored
            /\ Checklist_Item loaded = Checklist_Item stored
            /\ Status loaded = Status stored
            /\ Remarks loaded = Remarks stored)
         (r :: rows) df
    /\ (has_Owner cols = false ->
        forall current_role current_user,
          current_role <> "admin" -> current_user <> "admin" ->
          visible current_role current_user df = []).
Proof.
  intros F. exists (backfill clk cols (r :: rows)).
  split; [now apply load_data_table|].
  split.
  - unfold backfill.
    destruct (has_Owner cols), (has_Last_Updated cols), (has_Updated_By cols);
      rewrite ?map_map;
      first [ apply Forall2_map_right; intros x; simpl; tauto
            | rewrite <- (map_id (r :: rows)) at 2;
              apply Forall2_map_right; intros x; simpl; tauto ].
  - intros NO current_role current_user NR NU.
    unfold visible. apply String.eqb_neq in NR. rewrite NR. simpl negb. cbv iota.
    apply filter_none. intros x Hx. apply String.eqb_neq.
    unfold backfill in Hx. rewrite NO in Hx.
    destruct (has_Last_Updated cols), (has_Updated_By cols);
      rewrite ?map_map in Hx; apply in_map_iff in Hx as (y & <- & _);
      simpl; congruence.
Qed.

Lemma load_data_backfills_witness :
  exists df,
    load_data Sample.clk
      (mkWorld (Table (mkColumns false true false) Sample.three_visits)
               None NoWorkbook)
    = (Return df,
       mkWorld (Table (mkColumns false true false) Sample.three_visits)
               None NoWorkbook)
    /\ map Owner df = ["admin"; "admin"; "admin"; "admin"]
    /\ map Updated_By df = ["System"; "System"; "System"; "System"]
    /\ visible "user" "bob" df = [].
Proof.
  destruct (load_data_backfills Sample.clk
              (mkWorld (Table (mkColumns false true false) Sample.three_visits)
                       None NoWorkbook)
              (mkColumns false true false)
              (Sample.line "bob" "Dr Rao" "2024-06-01" "Room Book" "Done")
              (tl Sample.three_visits) eq_refl) as (df & L & _ & V).
  exists df. split; [exact L|].
  assert (E : df = backfill Sample.clk (mkColumns false true false)
                     Sample.three_visits).
  { rewrite (load_data_table Sample.clk
               (mkWorld (Table (mkColumns false true false) Sample.three_visits)
                        None NoWorkbook)
               (mkColumns false true false)
               (Sample.line "bob" "Dr Rao" "2024-06-01" "Room Book" "Done")
               (tl Sample.three_visits) eq_refl) in L.
    now injection L as <-. }
  split; [now rewrite E|]. split; [now rewrite E|].
  apply V; [reflexivity | discriminate | discriminate].
Defined.

(* ================================================================== *)
(** ** Visits: composition and invariants *)


(** A run of [add_new_faculty] that returns a frame is the successful one. *)
Lemma add_new_faculty_returns (clk : Clock) (w w' w1 : World)
    (df df' : DataFrame)
    (owner name designation session_name session_date msg : string) :
  load_data clk w = (Return df, w') ->
  add_new_faculty clk owner name designation session_name session_date w
    = (Return (msg, Some df'), w1) ->
  all_space name = false
  /\ existsb (visit_mask owner (strip name) session_date) df = false
  /\ df' = df ++ map (new_record owner name designation session_name
                        session_date (stamp clk))
                   (unique (map Checklist_Item df))
  /\ w1 = with_data_file (Table all_columns df') w'.
Proof.
  intros L A. unfold add_new_faculty, bind in A.
  rewrite L, strip_eqb_blank, empty_existsb, negb_involutive in A.
  destruct (all_space name); [discriminate|].
  destruct (existsb (visit_mask owner (strip name) session_date) df);
    [discriminate|].
  injection A as _ <- <-. auto.
Qed.







(** A run of [edit_faculty] that returns a frame is the successful one. *)
Lemma edit_faculty_returns (clk : Clock) (w w' w1 : World) (df df' : DataFrame)
    (owner old_name old_session_date
     new_name new_designation new_session_name new_session_date msg : string) :
  load_data clk w = (Return df, w') ->
  edit_faculty clk owner old_name old_session_date
    new_name new_designation new_session_name new_session_date w
    = (Return (msg, Some df'), w1) ->
  all_space new_name = false
  /\ existsb (collision_mask owner old_name old_session_date
                (strip new_name) new_session_date) df = false
  /\ existsb (visit_mask owner old_name old_session_date) df = true
  /\ df' = map (fun r => if visit_mask owner old_name old_session_date r
                         then renamed owner new_name new_designation
                                new_session_name new_session_date (stamp clk) r
                         else r) df
  /\ w1 = with_data_file (Table all_columns df') w'.
Proof.
  intros L A. unfold edit_faculty, bind in A.
  rewrite L, strip_eqb_blank, !empty_existsb, negb_involutive in A.
  destruct (all_space new_name); [discriminate|].
  destruct (existsb (collision_mask owner old_name old_session_date
                       (strip new_name) new_session_date) df);
    [discriminate|].
  destruct (existsb (visit_mask owner old_name old_session_date) df);
    [|discriminate].
  injection A as _ <- <-. auto.
Qed.

Lemma delete_faculty_returns (clk : Clock) (w w' w1 : World) (df df' : DataFrame)
    (owner name session_date : string) :
  load_data clk w = (Return df, w') ->
  delete_faculty clk owner name session_date w = (Return df', w1) ->
  df' = filter (fun r => negb (visit_mask owner name session_date r)) df
  /\ w1 = with_data_file (Table all_columns df') w'.
Proof.
  intros L A. unfold delete_faculty, bind in A. rewrite L in A.
  injection A as <- <-. auto.
Qed.

Lemma NoDup_map_transfer {A K K' : Type} (k : A -> K) (k' : A -> K')
    (l : list A) :
  (forall x y, In x l -> In y l -> k' x = k' y -> k x = k y) ->
  NoDup (map k l) -> NoDup (map k' l).
Proof.
  induction l as [|a t IH]; simpl; intros H N; [constructor|].
  apply NoDup_cons_iff in N as [Na Nt].
  constructor.
  - intros I. apply in_map_iff in I as (y & E & Hy).
    apply Na. apply in_map_iff. exists y. split; [|exact Hy].
    symmetry. apply H; auto.
  - apply IH; [|exact Nt]. intros x y Hx Hy. apply H; auto.
Qed.

Lemma NoDup_map_filter {A K : Type} (k : A -> K) (p : A -> bool) (l : list A) :
  NoDup (map k l) -> NoDup (map k (filter p l)).
Proof.
  induction l as [|a t IH]; simpl; intros N; [constructor|].
  apply NoDup_cons_iff in N as [Na Nt].
  destruct (p a); simpl; [|now apply IH].
  constructor; [|now apply IH].
  intros I. apply Na. apply in_map_iff in I as (y & E & Hy).
  apply in_map_iff. exists y. split; [exact E|].
  now apply filter_In in Hy as [Hy _].
Qed.

Lemma existsb_false_In {A : Type} (p : A -> bool) (l : list A) (x : A) :
  existsb p l = false -> In x l -> p x = false.
Proof.
  intros E Hx. destruct (p x) eqn:P; [|reflexivity].
  assert (existsb p l = true) by (apply existsb_exists; eauto). congruence.
Qed.

(** The three visit operations keep the checklist lines distinct: if no two
    loaded rows agree on (owner, name, session date, checklist item), then
    no two rows of the frame that [add_new_faculty], [edit_faculty] or
    [delete_faculty] returns and saves do. *)
Theorem visit_operations_keep_rows_unique (clk : Clock) (w w' : World)
    (df : DataFrame) :
  load_data clk w = (Return df, w') ->
  NoDup (map row_key df) ->
  (forall owner name designation session_name session_date msg df' w1,
      add_new_faculty clk owner name designation session_name session_date w
        = (Return (msg, Some df'), w1) ->
      NoDup (map row_key df'))
  /\ (forall owner old_name old_session_date new_name new_designation
             new_session_name new_session_date msg df' w1,
        edit_faculty clk owner old_name old_session_date
          new_name new_designation new_session_name new_session_date w
          = (Return (msg, Some df'), w1) ->
        NoDup (map row_key df'))
  /\ (forall owner name session_date df' w1,
        delete_faculty clk owner name session_date w = (Return df', w1) ->
        NoDup (map row_key df')).
Proof.
  intros L N. split; [|split].
  - intros owner name designation session_name session_date msg df' w1 A.
    destruct (add_new_faculty_returns clk w w' w1 df df' owner name designation
                session_name session_date msg L A) as (_ & E & -> & _).
    rewrite map_app. apply NoDup_app; [exact N| |].
    + rewrite map_map.
      apply (NoDup_map_transfer (fun x : string => x)).
      * intros x y _ _ H. unfold row_key in H. simpl in H. congruence.
      * rewrite map_id. apply unique_NoDup.
    + intros k Hk Hn.
      apply in_map_iff in Hk as (r & <- & Hr).
      apply in_map_iff in Hn as (r' & Er & Hr').
      apply in_map_iff in Hr' as (item & <- & _).
      pose proof (existsb_false_In _ _ _ E Hr) as M.
      assert (M' : visit_mask owner (strip name) session_date r = true).
      { apply visit_mask_true. unfold row_key in Er. simpl in Er.
        injection Er as <- <- <- _. auto. }
      congruence.
  - intros owner old_name old_session_date new_name new_designation
           new_session_name new_session_date msg df' w1 A.
    destruct (edit_faculty_returns clk w w' w1 df df' owner old_name
                old_session_date new_name new_designation new_session_name
                new_session_date msg L A) as (_ & C & _ & -> & _).
    rewrite map_map.
    apply (NoDup_map_transfer row_key); [|exact N].
    intros x y Hx Hy H.
    pose proof (existsb_false_In _ _ _ C Hx) as Cx.
    pose proof (existsb_false_In _ _ _ C Hy) as Cy.
    unfold collision_mask in Cx, Cy.
    destruct (visit_mask owner old_name old_session_date x) eqn:Mx,
             (visit_mask owner old_name old_session_date y) eqn:My.
    + apply visit_mask_true in Mx as (? & ? & ?), My as (? & ? & ?).
      unfold row_key in *. simpl in H. injection H as _ I. congruence.
    + exfalso. unfold row_key in H. simpl in H. injection H as O Nm D _.
      apply visit_mask_true in Mx as (Ox & _ & _).
      rewrite <- O, <- Nm, <- D, Ox, !String.eqb_refl in Cy. simpl in Cy.
      apply negb_false_iff in Cy. unfold visit_mask in My.
      rewrite <- O, Ox, String.eqb_refl in My. simpl in My. congruence.
    + exfalso. unfold row_key in H. simpl in H. injection H as O Nm D _.
      apply visit_mask_true in My as (Oy & _ & _).
      rewrite O, Nm, D, Oy, !String.eqb_refl in Cx. simpl in Cx.
      apply negb_false_iff in Cx. unfold visit_mask in Mx.
      rewrite O, Oy, String.eqb_refl in Mx. simpl in Mx. congruence.
    + exact H.
  - intros owner name session_date df' w1 A.
    destruct (delete_faculty_returns clk w w' w1 df df' owner name session_date
                L A) as (-> & _).
    now apply NoDup_map_filter.
Qed.

Lemma visit_operations_keep_rows_unique_witness :
  NoDup (map row_key Sample.three_visits)
  /\ NoDup (map row_key
              [ Sample.line "eve" "Dr Rao" "2024-06-01" "Room Book" "NA";
                Sample.line "bob" "Dr Sen" "2024-07-15" "Room Book" "Pending" ]).
Proof.
  assert (N : NoDup (map row_key Sample.three_visits)).
  { repeat (constructor; [simpl; intuition discriminate|]). constructor. }
  split; [exact N|].
  destruct (visit_operations_keep_rows_unique Sample.clk
              (Sample.world Sample.three_visits)
              (Sample.world Sample.three_visits) Sample.three_visits
              eq_refl N) as (_ & _ & D).
  apply (D "bob" "Dr Rao" "2024-06-01" _
           (Sample.world
              [ Sample.line "eve" "Dr Rao" "2024-06-01" "Room Book" "NA";
                Sample.line "bob" "Dr Sen" "2024-07-15" "Room Book" "Pending" ])).
  reflexivity.
Defined.

Lemma filter_map_fixed {A : Type} (p : A -> bool) (g : A -> A) (l : list A) :
  (forall x, p (g x) = p x) -> (forall x, p x = true -> g x = x) ->
  filter p (map g l) = filter p l.
Proof.
  intros P G. induction l as [|a t IH]; simpl; [reflexivity|].
  rewrite P. destruct (p a) eqn:E; [|exact IH].
  rewrite (G a E), IH. reflexivity.
Qed.

Lemma visible_user (current_role current_user : string) (df : DataFrame) :
  current_role <> "admin" ->
  visible current_role current_user df
  = filter (fun r => Owner r == current_user) df.
Proof.
  intros H. unfold visible. apply String.eqb_neq in H. now rewrite H.
Qed.

(** Isolation of owners under the visit operations: whatever one owner
    adds, renames or deletes, the frame that a session of any other user
    without the admin role sees is the same before and after. *)
Theorem visit_operations_leave_other_owners (clk : Clock) (w w' : World)
    (df : DataFrame) (owner other_role other_user : string) :
  load_data clk w = (Return df, w') ->
  other_role <> "admin" ->
  other_user <> owner ->
  (forall name designation session_name session_date msg df' w1,
      add_new_faculty clk owner name designation session_name session_date w
        = (Return (msg, Some df'), w1) ->
      visible other_role other_user df' = visible other_role other_user df)
  /\ (forall old_name old_session_date new_name new_designation
             new_session_name new_session_date msg df' w1,
        edit_faculty clk owner old_name old_session_date
          new_name new_designation new_session_name new_session_date w
          = (Return (msg, Some df'), w1) ->
        visible other_role other_user df' = visible other_role other_user df)
  /\ (forall name session_date df' w1,
        delete_faculty clk owner name session_date w = (Return df', w1) ->
        visible other_role other_user df' = visible other_role other_user df).
Proof.
  intros L R U. rewrite !visible_user by exact R.
  split; [|split].
  - intros name designation session_name session_date msg df' w1 A.
    destruct (add_new_faculty_returns clk w w' w1 df df' owner name designation
                session_name session_date msg L A) as (_ & _ & -> & _).
    rewrite visible_user by exact R.
    rewrite filter_app, (filter_none _ (map _ _)); [apply app_nil_r|].
    intros r Hr. apply in_map_iff in Hr as (item & <- & _). simpl.
    apply String.eqb_neq. congruence.
  - intros old_name old_session_date new_name new_designation
           new_session_name new_session_date msg df' w1 A.
    destruct (edit_faculty_returns clk w w' w1 df df' owner old_name
                old_session_date new_name new_designation new_session_name
                new_session_date msg L A) as (_ & _ & _ & -> & _).
    rewrite visible_user by exact R.
    apply filter_map_fixed.
    + intros x. now destruct (visit_mask owner old_name old_session_date x).
    + intros x Hx. apply String.eqb_eq in Hx.
      destruct (visit_mask owner old_name old_session_date x) eqn:M;
        [|reflexivity].
      apply visit_mask_true in M as (O & _ & _). congruence.
  - intros name session_date df' w1 A.
    destruct (delete_faculty_returns clk w w' w1 df df' owner name session_date
                L A) as (-> & _).
    rewrite visible_user by exact R.
    apply filter_filter_implied. intros x Hx. apply String.eqb_eq in Hx.
    apply negb_true_iff.
    destruct (visit_mask owner name session_date x) eqn:M; [|reflexivity].
    apply visit_mask_true in M as (O & _ & _). congruence.
Qed.

Lemma visit_operations_leave_other_owners_witness :
  visible "user" "eve"
    [ Sample.line "eve" "Dr Rao" "2024-06-01" "Room Book" "NA";
      Sample.line "bob" "Dr Sen" "2024-07-15" "Room Book" "Pending" ]
  = visible "user" "eve" Sample.three_visits.
Proof.
  destruct (visit_operations_leave_other_owners Sample.clk
              (Sample.world Sample.three_visits)
              (Sample.world Sample.three_visits) Sample.three_visits
              "bob" "user" "eve" eq_refl) as (_ & _ & D);
    [discriminate | discriminate |].
  apply (D "Dr Rao" "2024-06-01" _
           (Sample.world
              [ Sample.line "eve" "Dr Rao" "2024-06-01" "Room Book" "NA";
                Sample.line "bob" "Dr Sen" "2024-07-15" "Room Book" "Pending" ])).
  reflexivity.
Defined.

(* ================================================================== *)
(** ** Accounts: composition and invariants *)


Lemma find_filter_out {A : Type} (p q : A -> bool) (l : list A) :
  (forall x, p x = true -> q x = false) -> find p (filter q l) = None.
Proof.
  intros H. apply find_none_iff. intros x Hx.
  apply filter_In in Hx as [_ Q].
  destruct (p x) eqn:P; [|reflexivity]. apply H in P. congruence.
Qed.



Lemma map_set_at_fixed {A K : Type} (k : A -> K) (f : A -> A) (idx : nat)
    (l : list A) :
  (forall x, k (f x) = k x) -> map k (set_at idx f l) = map k l.
Proof.
  intros H. revert idx. induction l as [|a t IH]; intros [|i]; simpl;
    rewrite ?H, ?IH; reflexivity.
Qed.

Lemma set_at_fixed {A : Type} (f : A -> A) (idx : nat) (l : list A) :
  (forall x, f x = x) -> set_at idx f l = l.
Proof.
  intros H. revert idx. induction l as [|a t IH]; intros [|i]; simpl;
    rewrite ?H, ?IH; reflexivity.
Qed.

Lemma set_at_ext {A : Type} (f g : A -> A) (idx : nat) (l : list A) :
  (forall x, f x = g x) -> set_at idx f l = set_at idx g l.
Proof.
  intros H. revert idx. induction l as [|a t IH]; intros [|i]; simpl;
    rewrite ?H, ?IH; reflexivity.
Qed.

Section AccountsProperties.

Variable hash_password : string -> string.

Lemma load_users_file (clk : Clock) (w w1 : World) (users : UsersFrame) :
  load_users hash_password clk w = (Return users, w1) ->
  users_file w1 = Some users /\ data_file w1 = data_file w
  /\ workbook w1 = workbook w.
Proof.
  intros L. unfold load_users, bind, initialize_users in L.
  destruct (users_file w) eqn:U; cbn in L; rewrite ?U in L;
    injection L as <- <-; auto.
Qed.

Lemma load_users_saved (clk : Clock) (w : World) (users : UsersFrame) :
  load_users hash_password clk (with_users_file (Some users) w)
    = (Return users, with_users_file (Some users) w).
Proof. now apply load_users_existing. Qed.

(** [authenticate_user] as a function of the first account under the name. *)
Lemma authenticate_user_find (clk : Clock) (w w1 : World) (users : UsersFrame)
    (username0 password0 : string) :
  load_users hash_password clk w = (Return users, w1) ->
  authenticate_user hash_password clk username0 password0 w
    = (Return
         match find (fun u => username u == username0) users with
         | None => (false, None, None)
         | Some u =>
             if negb (active u) then (false, None, Some "Account is inactive")
             else if password u == hash_password password0
                  then (true, Some (role u), Some (full_name u))
                  else (false, None, Some "Invalid password")
         end, w1).
Proof.
  intros L. unfold authenticate_user, bind. rewrite L.
  pose proof (filter_first (fun u => username u == username0) users) as F.
  destruct (filter (fun u => username u == username0) users) as [|v rest];
    rewrite F; [reflexivity|].
  destruct (negb (active v)); [reflexivity|].
  destruct (password v == hash_password password0); reflexivity.
Qed.

(** [update_user] on an existing name, in closed form. *)
Lemma update_user_closed (clk : Clock) (w w1 : World) (users : UsersFrame)
    (username0 : string) (full_name0 email0 password0 : option string)
    (active0 : option bool) (idx : nat) :
  load_users hash_password clk w = (Return users, w1) ->
  first_index (fun u => username u == username0) users = Some idx ->
  update_user hash_password clk username0 full_name0 email0 password0 active0 w
    = (Return (true, "User updated successfully"),
       with_users_file
         (Some (set_at idx
                  (updated hash_password full_name0 email0 password0 active0)
                  users)) w1).
Proof.
  intros L F. unfold update_user, bind. rewrite L, F.
  unfold updated.
  destruct (given full_name0), (given email0), (given password0), active0;
    rewrite ?set_at_set_at; try reflexivity.
  now rewrite (set_at_fixed (fun u : User => u)).
Qed.

Lemma updated_username (full_name0 email0 password0 : option string)
    (active0 : option bool) (u : User) :
  username (updated hash_password full_name0 email0 password0 active0 u)
  = username u.
Proof.
  unfold updated.
  destruct (given full_name0), (given email0), (given password0), active0;
    reflexivity.
Qed.


(** The three account operations keep usernames distinct: if no two loaded
    accounts share a username, no two accounts do in the users file that
    [add_user], [update_user] or [delete_user] leaves. *)
Theorem account_operations_keep_usernames_unique (clk : Clock) (w w1 : World)
    (users : UsersFrame) :
  load_users hash_password clk w = (Return users, w1) ->
  NoDup (map username users) ->
  (forall username0 password0 role0 full_name0 email0 res w2,
      add_user hash_password clk username0 password0 role0 full_name0 email0 w
        = (Return res, w2) ->
      exists users', users_file w2 = Some users'
                     /\ NoDup (map username users'))
  /\ (forall username0 full_name0 email0 password0 active0 res w2,
        update_user hash_password clk username0
          full_name0 email0 password0 active0 w = (Return res, w2) ->
        exists users', users_file w2 = Some users'
                       /\ map username users' = map username users
                       /\ NoDup (map username users'))
  /\ (forall username0 res w2,
        delete_user hash_password clk username0 w = (Return res, w2) ->
        exists users', users_file w2 = Some users'
                       /\ NoDup (map username users')).
Proof.
  intros L N.
  destruct (load_users_file clk w w1 users L) as (U & _).
  split; [|split].
  - intros username0 password0 role0 full_name0 email0 res w2 A.
    unfold add_user, bind in A. rewrite L in A.
    destruct (existsb (fun u => username u == username0) users) eqn:X.
    + injection A as _ <-. eauto.
    + injection A as _ <-. eexists. split; [reflexivity|].
      rewrite map_app. apply NoDup_app; [exact N| |].
      * simpl. constructor; [intros []|constructor].
      * intros n Hn [<-|[]]. simpl in Hn.
        apply in_map_iff in Hn as (u & E & Hu).
        pose proof (existsb_false_In _ _ _ X Hu) as Y. simpl in Y.
        apply String.eqb_neq in Y. contradiction.
  - intros username0 full_name0 email0 password0 active0 res w2 A.
    destruct (first_index (fun u => username u == username0) users)
      as [idx|] eqn:F.
    + rewrite (update_user_closed clk w w1 users username0 full_name0 email0
                 password0 active0 idx L F) in A.
      injection A as _ <-. eexists. split; [reflexivity|].
      assert (M : map username
                    (set_at idx (updated hash_password full_name0 email0
                                   password0 active0) users)
                  = map username users)
        by (apply map_set_at_fixed; apply updated_username).
      split; [exact M | now rewrite M].
    + unfold update_user, bind in A. rewrite L, F in A.
      injection A as _ <-. eauto.
  - intros username0 res w2 A.
    unfold delete_user, bind in A. rewrite L in A.
    destruct (username0 == "admin").
    + injection A as _ <-. eauto.
    + destruct (load_data clk w1) as [[df|e] w'] eqn:D; [|discriminate].
      injection A as _ <-. eexists. split; [reflexivity|].
      now apply NoDup_map_filter.
Qed.

End AccountsProperties.


Lemma account_operations_keep_usernames_unique_witness :
  NoDup (map username Sample.accounts)
  /\ exists users',
       users_file (snd (delete_user Sample.digest Sample.clk "bob"
                          (Sample.world Sample.three_visits))) = Some users'
       /\ NoDup (map username users').
Proof.
  assert (N : NoDup (map username Sample.accounts)).
  { repeat (constructor; [simpl; intuition discriminate|]). constructor. }
  split; [exact N|].
  destruct (account_operations_keep_usernames_unique Sample.digest Sample.clk
              (Sample.world Sample.three_visits)
              (Sample.world Sample.three_visits) Sample.accounts eq_refl N)
    as (_ & _ & D).
  apply (D "bob" (true, "User deleted successfully")). reflexivity.
Defined.

Section AccountsLifecycle.

Variable hash_password : string -> string.

(** After [delete_user] for a username other than "admin", on a record
    store that loads, no password authenticates that username any more:
    the answer is the not-found triple.  The call reports success whether
    or not an account bore the username. *)
Theorem delete_user_then_authenticate (clk clk2 : Clock) (w w1 w2 : World)
    (users : UsersFrame) (df : DataFrame) (username0 password0 : string) :
  load_users hash_password clk w = (Return users, w1) ->
  load_data clk w1 = (Return df, w2) ->
  username0 <> "admin" ->
  exists w3,
    delete_user hash_password clk username0 w
      = (Return (true, "User deleted successfully"), w3)
    /\ authenticate_user hash_password clk2 username0 password0 w3
       = (Return (false, None, None), w3).
Proof.
  intros L D NA. eexists. split.
  - unfold delete_user, bind. rewrite L.
    apply String.eqb_neq in NA. rewrite NA, D. reflexivity.
  - rewrite (authenticate_user_find hash_password clk2 _ _ _ username0
               password0 (load_users_saved hash_password clk2 _ _)).
    rewrite find_filter_out; [reflexivity|].
    intros u H. now rewrite H.
Qed.

(** [delete_user] never removes an account named "admin": whatever username
    it is called with, the accounts under "admin" in the users file it
    leaves are the ones that were loaded, so that signing in as "admin"
    is answered as before. *)
Theorem delete_user_keeps_admin (clk clk2 : Clock) (w w1 : World)
    (users : UsersFrame) (username0 password0 : string)
    (res : bool * string) (w3 : World) :
  load_users hash_password clk w = (Return users, w1) ->
  delete_user hash_password clk username0 w = (Return res, w3) ->
  exists users',
    users_file w3 = Some users'
    /\ filter (fun u => username u == "admin") users'
       = filter (fun u => username u == "admin") users
    /\ fst (authenticate_user hash_password clk2 "admin" password0 w3)
       = fst (authenticate_user hash_password clk "admin" password0 w).
Proof.
  intros L A.
  destruct (load_users_file hash_password clk w w1 users L) as (U & _).
  assert (X : exists users',
             users_file w3 = Some users'
             /\ filter (fun u => username u == "admin") users'
                = filter (fun u => username u == "admin") users).
  { unfold delete_user, bind in A. rewrite L in A.
    destruct (username0 == "admin") eqn:E.
    - injection A as _ <-. eauto.
    - destruct (load_data clk w1) as [[df|e] w'] eqn:D; [|discriminate].
      injection A as _ <-. eexists. split; [reflexivity|].
      apply filter_filter_implied. intros u H. apply String.eqb_eq in H.
      rewrite H. rewrite String.eqb_sym. now rewrite E. }
  destruct X as (users' & U' & F). exists users'.
  split; [exact U'|]. split; [exact F|].
  rewrite (authenticate_user_find hash_password clk2 w3 w3 users' "admin"
             password0 (load_users_existing hash_password clk2 w3 users' U')).
  rewrite (authenticate_user_find hash_password clk w w1 users "admin"
             password0 L).
  simpl.
  pose proof (filter_first (fun u => username u == "admin") users') as F1.
  pose proof (filter_first (fun u => username u == "admin") users) as F2.
  rewrite F in F1.
  destruct (filter (fun u => username u == "admin") users);
    now rewrite F1, F2.
Qed.


(** First run: when the users file does not exist, any sign-in creates it
    with the single account "admin"; the password "admin123" signs that
    account in with the role "admin", and every other username is answered
    with the not-found triple. *)
Theorem first_run_accounts (clk : Clock) (w : World) (username0 p : string) :
  users_file w = None ->
  authenticate_user hash_password clk "admin" "admin123" w
    = (Return (true, Some "admin", Some "Administrator"),
       with_users_file (Some [default_admin hash_password clk]) w)
  /\ (username0 <> "admin" ->
      authenticate_user hash_password clk username0 p w
      = (Return (false, None, None),
         with_users_file (Some [default_admin hash_password clk]) w)).
Proof.
  intros U.
  assert (L : load_users hash_password clk w
              = (Return [default_admin hash_password clk],
                 with_users_file (Some [default_admin hash_password clk]) w)).
  { unfold load_users, bind, initialize_users. now rewrite U. }
  split.
  - rewrite (authenticate_user_find hash_password clk _ _ _ _ _ L). simpl.
    now rewrite String.eqb_refl.
  - intros NA.
    rewrite (authenticate_user_find hash_password clk _ _ _ _ _ L).
    assert (F : find (fun u => username u == username0)
                  [default_admin hash_password clk] = None).
    { apply find_none_iff. intros u [<-|[]]. apply String.eqb_neq.
      simpl. congruence. }
    now rewrite F.
Qed.

End AccountsLifecycle.

Lemma delete_user_then_authenticate_witness :
  exists w3,
    delete_user Sample.digest Sample.clk "bob" (Sample.world Sample.three_visits)
      = (Return (true, "User deleted successfully"), w3)
    /\ authenticate_user Sample.digest Sample.clk "bob" "s3cret" w3
       = (Return (false, None, None), w3).
Proof.
  apply (delete_user_then_authenticate Sample.digest Sample.clk Sample.clk
           (Sample.world Sample.three_visits)
           (Sample.world Sample.three_visits)
           (Sample.world Sample.three_visits)
           Sample.accounts Sample.three_visits "bob" "s3cret");
    [reflexivity | reflexivity | discriminate].
Defined.

Lemma delete_user_keeps_admin_witness :
  exists users',
    users_file (snd (delete_user Sample.digest Sample.clk "bob"
                       (Sample.world Sample.three_visits))) = Some users'
    /\ filter (fun u => username u == "admin") users'
       = filter (fun u => username u == "admin") Sample.accounts
    /\ fst (authenticate_user Sample.digest Sample.clk "admin" "admin123"
              (snd (delete_user Sample.digest Sample.clk "bob"
                      (Sample.world Sample.three_visits))))
       = fst (authenticate_user Sample.digest Sample.clk "admin" "admin123"
                (Sample.world Sample.three_visits)).
Proof.
  apply (delete_user_keeps_admin Sample.digest Sample.clk Sample.clk
           (Sample.world Sample.three_visits)
           (Sample.world Sample.three_visits) Sample.accounts "bob" "admin123"
           (true, "User deleted successfully"));
    reflexivity.
Defined.


Lemma first_run_accounts_witness :
  authenticate_user Sample.digest Sample.clk "admin" "admin123"
    (mkWorld Missing None NoWorkbook)
    = (Return (true, Some "admin", Some "Administrator"),
       mkWorld Missing (Some [default_admin Sample.digest Sample.clk])
               NoWorkbook).
Proof.
  destruct (first_run_accounts Sample.digest Sample.clk
              (mkWorld Missing None NoWorkbook) "bob" "x" eq_refl) as [A _].
  exact A.
Defined.

(* ================================================================== *)
(** ** Signing in *)

Section Login.

Variable hash_password : string -> string.

(** The Login button.  With an empty username or password nothing is
    read and the session is left as it was.  Otherwise the session is left
    as it was unless the first account under the username is active and
    holds the hash of the password, in which case it becomes logged in
    under that username with the account's role and full name.  The
    refusals differ: an unknown username is answered "Invalid username or
    password", a wrong password "Invalid password", an inactive account
    "Account is inactive". *)
Theorem login_button_spec (clk : Clock) (w w1 : World) (users : UsersFrame)
    (username0 password0 : string) (ss : Session.state) :
  load_users hash_password clk w = (Return users, w1) ->
  (username0 = "" \/ password0 = "" ->
   login_button hash_password clk username0 password0 ss w
     = (Return (ss, error "Please enter both username and password"), w))
  /\ (username0 <> "" -> password0 <> "" ->
      (find (fun u => username u == username0) users = None ->
       login_button hash_password clk username0 password0 ss w
         = (Return (ss, error "Invalid username or password"), w1))
      /\ (forall u,
            find (fun u => username u == username0) users = Some u ->
            (active u = false ->
             login_button hash_password clk username0 password0 ss w
               = (Return (ss, error "Account is inactive"), w1))
            /\ (active u = true -> password u <> hash_password password0 ->
                login_button hash_password clk username0 password0 ss w
                  = (Return (ss, error "Invalid password"), w1))
            /\ (active u = true -> password u = hash_password password0 ->
                login_button hash_password clk username0 password0 ss w
                  = (Return (Session.mk true (Some username0) (Some (role u))
                               (Some (full_name u)),
                             success ("Welcome, " ++ full_name u ++ "!")),
                     w1))))
  /\ (forall ss' n w2,
        login_button hash_password clk username0 password0 ss w
          = (Return (ss', n), w2) ->
        Session.logged_in ss = false ->
        Session.logged_in ss' = true ->
        exists u,
          find (fun u => username u == username0) users = Some u
          /\ active u = true
          /\ password u = hash_password password0
          /\ ss' = Session.mk true (Some username0) (Some (role u))
                     (Some (full_name u))).
Proof.
  intros L.
  assert (T : forall s, truthy s = true <-> s <> "").
  { intros [|c s]; simpl; split; congruence. }
  assert (A := authenticate_user_find hash_password clk w w1 users username0
                 password0 L).
  split; [|split].
  - intros H. unfold login_button.
    destruct H as [-> | ->]; [reflexivity|].
    now rewrite andb_false_r.
  - intros NU NP. apply T in NU, NP.
    unfold login_button. rewrite NU, NP.
    cbv beta iota delta [andb bind]. rewrite A. simpl.
    split.
    + intros F. now rewrite F.
    + intros u F. rewrite F. split; [|split].
      * intros Ac. now rewrite Ac.
      * intros Ac P. rewrite Ac. simpl.
        apply String.eqb_neq in P. now rewrite P.
      * intros Ac P. rewrite Ac. simpl.
        apply String.eqb_eq in P. now rewrite P.
  - intros ss' n w2 H Off On.
    unfold login_button in H.
    destruct (truthy username0 && truthy password0).
    + unfold bind in H. rewrite A in H.
      destruct (find (fun u => username u == username0) users) as [u|].
      * exists u. split; [reflexivity|].
        destruct (active u); simpl in H.
        -- destruct (password u == hash_password password0) eqn:P; simpl in H.
           ++ injection H as <- _ _. apply String.eqb_eq in P. auto.
           ++ injection H as <- _ _. congruence.
        -- injection H as <- _ _. congruence.
      * simpl in H. injection H as <- _ _. congruence.
    + injection H as <- _ _. congruence.
Qed.

End Login.

Lemma login_button_spec_witness :
  login_button Sample.digest Sample.clk "bob" "s3cret" Session.initial
    (Sample.world Sample.one_visit)
    = (Return (Session.mk true (Some "bob") (Some "user") (Some "Bob Roy"),
               success "Welcome, Bob Roy!"), Sample.world Sample.one_visit)
  /\ login_button Sample.digest Sample.clk "bob" "guess" Session.initial
       (Sample.world Sample.one_visit)
     = (Return (Session.initial, error "Invalid password"),
        Sample.world Sample.one_visit)
  /\ login_button Sample.digest Sample.clk "mallory" "guess" Session.initial
       (Sample.world Sample.one_visit)
     = (Return (Session.initial, error "Invalid username or password"),
        Sample.world Sample.one_visit).
Proof.
  pose proof (fun n p =>
    login_button_spec Sample.digest Sample.clk
      (Sample.world Sample.one_visit) (Sample.world Sample.one_visit)
      Sample.accounts n p Session.initial eq_refl) as S.
  split; [|split].
  - destruct (S "bob" "s3cret") as (_ & H & _).
    destruct H as [_ H]; [discriminate | discriminate |].
    destruct (H _ eq_refl) as (_ & _ & Ok). now apply Ok.
  - destruct (S "bob" "guess") as (_ & H & _).
    destruct H as [_ H]; [discriminate | discriminate |].
    destruct (H _ eq_refl) as (_ & Bad & _).
    apply Bad; [reflexivity | discriminate].
  - destruct (S "mallory" "guess") as (_ & H & _).
    destruct H as [H _]; [discriminate | discriminate |].
    now apply H.
Defined.

(* ================================================================== *)
(** ** Bulk actions *)



Lemma count_status_all (s : string) (l : DataFrame) :
  (forall r, In r l -> Status r = s) ->
  count_status s l = List.length l
  /\ forall s', s' <> s -> count_status s' l = 0.
Proof.
  unfold count_status. induction l as [|r t IH]; simpl; intros H;
    [split; reflexivity|].
  destruct IH as [I1 I2]; [intros x Hx; apply H; now right|].
  rewrite (H r (or_introl eq_refl)), String.eqb_refl. simpl.
  split; [now rewrite I1|].
  intros s' N. apply String.eqb_neq in N. rewrite String.eqb_sym, N.
  now apply I2; apply String.eqb_neq.
Qed.

(** Mark All as Done, then the summary: in the summary of what the session
    sees of the frame the button returns, every line under the selected
    name and date counts all its rows as Done and none as Pending or NA. *)
Theorem mark_all_done_then_summary (clk : Clock) (w w1 : World)
    (current_role current_user selected_name selected_date : string)
    (session_df df' : DataFrame) (s : Summary) :
  apply_bulk_action clk current_role current_user selected_name selected_date
    "Mark All as Done" session_df w = (Return df', w1) ->
  In s (get_faculty_summary (visible current_role current_user df')) ->
  sum_Name s = selected_name ->
  sum_Session_Date s = selected_date ->
  sum_Done s = sum_Total_Items s /\ sum_Pending s = 0 /\ sum_NA s = 0.
Proof.
  intros A Hs Hn Hd.
  unfold apply_bulk_action in A. simpl in A. injection A as <- _.
  unfold get_faculty_summary in Hs.
  apply in_map_iff in Hs as (f & <- & Hf). simpl in *.
  set (rows := filter (visit_mask (fac_Owner f) (fac_Name f)
                         (fac_Session_Date f)) _).
  assert (D : forall r, In r rows -> Status r = "Done").
  { intros r' Hr. unfold rows in Hr. apply filter_In in Hr as [Hv M].
    apply visit_mask_true in M as (_ & Mn & Md).
    assert (V : In r' (map (fun r => if bulk_mask current_role current_user
                                          selected_name selected_date r
                                     then bulk_row "Mark All as Done"
                                            current_user (stamp clk) r
                                     else r) session_df)
                /\ (current_role = "admin" \/ Owner r' = current_user)).
    { unfold visible in Hv.
      destruct (current_role == "admin") eqn:E; simpl in Hv.
      - split; [exact Hv|]. left. now apply String.eqb_eq.
      - apply filter_In in Hv as [Hv O]. split; [exact Hv|].
        right. now apply String.eqb_eq. }
    destruct V as [Hin Ho].
    apply in_map_iff in Hin as (r & E & _).
    destruct (bulk_mask current_role current_user selected_name
                selected_date r) eqn:B.
    - now subst r'.
    - subst r'. exfalso. unfold bulk_mask in B.
      rewrite Mn, Md, Hn, Hd, !String.eqb_refl in B. simpl in B.
      destruct Ho as [-> | O]; [discriminate|].
      rewrite O, String.eqb_refl in B.
      now destruct (negb (current_role == "admin")). }
  destruct (count_status_all "Done" rows D) as [C1 C2].
  split; [exact C1|]. split; apply C2; discriminate.
Qed.

Lemma mark_all_done_then_summary_witness :
  get_faculty_summary
    (visible "user" "bob"
       (map (fun r => if bulk_mask "user" "bob" "Dr Rao" "2024-06-01" r
                      then bulk_row "Mark All as Done" "bob"
                             (stamp Sample.clk) r
                      else r) Sample.three_visits))
  = [ {| sum_Owner := "bob"; sum_Name := "Dr Rao";
         sum_Designation := "Professor"; sum_Session_Name := "Ethics";
         sum_Session_Date := "2024-06-01"; sum_Total_Items := 2;
         sum_Done := 2; sum_Pending := 0; sum_NA := 0;
         sum_Progress := 100%float |};
      {| sum_Owner := "bob"; sum_Name := "Dr Sen";
         sum_Designation := "Professor"; sum_Session_Name := "Ethics";
         sum_Session_Date := "2024-07-15"; sum_Total_Items := 1;
         sum_Done := 0; sum_Pending := 1; sum_NA := 0;
         sum_Progress := 0%float |} ]
  /\ sum_Done
       {| sum_Owner := "bob"; sum_Name := "Dr Rao";
          sum_Designation := "Professor"; sum_Session_Name := "Ethics";
          sum_Session_Date := "2024-06-01"; sum_Total_Items := 2;
          sum_Done := 2; sum_Pending := 0; sum_NA := 0;
          sum_Progress := 100%float |}
     = sum_Total_Items
         {| sum_Owner := "bob"; sum_Name := "Dr Rao";
            sum_Designation := "Professor"; sum_Session_Name := "Ethics";
            sum_Session_Date := "2024-06-01"; sum_Total_Items := 2;
            sum_Done := 2; sum_Pending := 0; sum_NA := 0;
            sum_Progress := 100%float |}.
Proof.
  assert (E : get_faculty_summary
    (visible "user" "bob"
       (map (fun r => if bulk_mask "user" "bob" "Dr Rao" "2024-06-01" r
                      then bulk_row "Mark All as Done" "bob"
                             (stamp Sample.clk) r
                      else r) Sample.three_visits))
  = [ {| sum_Owner := "bob"; sum_Name := "Dr Rao";
         sum_Designation := "Professor"; sum_Session_Name := "Ethics";
         sum_Session_Date := "2024-06-01"; sum_Total_Items := 2;
         sum_Done := 2; sum_Pending := 0; sum_NA := 0;
         sum_Progress := 100%float |};
      {| sum_Owner := "bob"; sum_Name := "Dr Sen";
         sum_Designation := "Professor"; sum_Session_Name := "Ethics";
         sum_Session_Date := "2024-07-15"; sum_Total_Items := 1;
         sum_Done := 0; sum_Pending := 1; sum_NA := 0;
         sum_Progress := 0%float |} ]) by (vm_compute; reflexivity).
  split; [exact E|].
  destruct (mark_all_done_then_summary Sample.clk
              (Sample.world Sample.three_visits)
              (snd (apply_bulk_action Sample.clk "user" "bob" "Dr Rao"
                      "2024-06-01" "Mark All as Done" Sample.three_visits
                      (Sample.world Sample.three_visits)))
              "user" "bob" "Dr Rao" "2024-06-01" Sample.three_visits
              (map (fun r => if bulk_mask "user" "bob" "Dr Rao" "2024-06-01" r
                             then bulk_row "Mark All as Done" "bob"
                                    (stamp Sample.clk) r
                             else r) Sample.three_visits)
              {| sum_Owner := "bob"; sum_Name := "Dr Rao";
                 sum_Designation := "Professor"; sum_Session_Name := "Ethics";
                 sum_Session_Date := "2024-06-01"; sum_Total_Items := 2;
                 sum_Done := 2; sum_Pending := 0; sum_NA := 0;
                 sum_Progress := 100%float |}
              eq_refl) as (D & _ & _);
    [rewrite E; left; reflexivity | reflexivity | reflexivity | exact D].
Defined.

(* ================================================================== *)
(** ** The summary as a whole *)

Lemma count_three_le (l : DataFrame) :
  count_status "Done" l + count_status "Pending" l + count_status "NA" l
  <= List.length l.
Proof.
  unfold count_status. induction l as [|r t IH]; simpl; [lia|].
  destruct (Status r == "Done") eqn:D, (Status r == "Pending") eqn:P,
           (Status r == "NA") eqn:N; simpl;
    try apply String.eqb_eq in D; try apply String.eqb_eq in P;
    try apply String.eqb_eq in N; try congruence; lia.
Qed.

Lemma count_three_eq (l : DataFrame) :
  (forall r, In r l ->
     Status r = "Done" \/ Status r = "Pending" \/ Status r = "NA") ->
  count_status "Done" l + count_status "Pending" l + count_status "NA" l
  = List.length l.
Proof.
  unfold count_status. induction l as [|r t IH]; simpl; intros H;
    [reflexivity|].
  assert (I := IH (fun x Hx => H x (or_intror Hx))).
  destruct (H r (or_introl eq_refl)) as [E|[E|E]]; rewrite E; simpl; lia.
Qed.

(** In every line of the summary the three counts never exceed the total,
    and they add up to it when every row of the frame has one of the three
    statuses; a frame in which the session of a user without the admin
    role sees only its own rows yields only lines of that owner, and the
    summary has no line exactly when the frame has no row. *)
Theorem get_faculty_summary_counts (df : DataFrame) :
  (forall s, In s (get_faculty_summary df) ->
     sum_Done s + sum_Pending s + sum_NA s <= sum_Total_Items s)
  /\ ((forall r, In r df ->
         Status r = "Done" \/ Status r = "Pending" \/ Status r = "NA") ->
      forall s, In s (get_faculty_summary df) ->
        sum_Done s + sum_Pending s + sum_NA s = sum_Total_Items s)
  /\ (forall current_role current_user s,
        current_role <> "admin" ->
        In s (get_faculty_summary (visible current_role current_user df)) ->
        sum_Owner s = current_user)
  /\ (get_faculty_summary df = [] <-> df = []).
Proof.
  split; [|split; [|split]].
  - intros s Hs. unfold get_faculty_summary in Hs.
    apply in_map_iff in Hs as (f & <- & _). simpl. apply count_three_le.
  - intros H s Hs. unfold get_faculty_summary in Hs.
    apply in_map_iff in Hs as (f & <- & _). simpl. apply count_three_eq.
    intros r Hr. apply filter_In in Hr as [Hr _]. now apply H.
  - intros current_role current_user s NR Hs.
    unfold get_faculty_summary in Hs.
    apply in_map_iff in Hs as (f & <- & Hf). simpl.
    apply (proj1 (drop_duplicates_In faculty_eqb faculty_eqb_eq _ _)) in Hf.
    apply in_map_iff in Hf as (r & <- & Hr). simpl.
    rewrite visible_user in Hr by exact NR.
    apply filter_In in Hr as [_ O]. now apply String.eqb_eq.
  - unfold get_faculty_summary. destruct df; simpl; split; congruence.
Qed.

Lemma list_sum_map_add {A : Type} (f g : A -> nat) (l : list A) :
  list_sum (map (fun x => f x + g x) l)
  = list_sum (map f l) + list_sum (map g l).
Proof. induction l; simpl; lia. Qed.












(* ================================================================== *)
(** ** Stored names *)






